(** * Construction_Private_GPT: ingestion and answering scripts

    A shallow embedding of [constants.py], [ingest.py] and [privateGPT.py].

    Python values are modelled as follows.
    - [str] is [string]; a character is a code point below 256.
    - [int] is [Z].
    - A raised exception is a value of [exn]; [exit(n)] raises [SystemExit n],
      as it does in Python.
    - [os.environ] and the parsed [.env] file are [gmap string string].
    - Library objects the scripts only pass around (embedding model, LLM
      runtime, text splitter, document loaders, the QA chain) are section
      variables: the theorems hold for every behaviour of theirs. *)

From Stdlib Require Import ZArith NArith Ascii List Lia Permutation.
From Stdlib Require Import DecimalString.
From stdpp Require Import base gmap strings list.

(** ** Python builtins used by the scripts *)
Module Py.

Inductive exn :=
| Exception (msg : string)
| ValueError (msg : string)
| InvalidLiteral (base : Z) (literal : string)
| TypeError (msg : string)
| KeyError (key : string)
| ImportError (name : string) (module : string)
| EOFError
| SystemExit (code : Z).

Inductive outcome (A : Type) :=
| Return (a : A)
| Raise (e : exn).
Arguments Return {A} a.
Arguments Raise {A} e.

(** The status the interpreter exits with: 0 after a normal return, the
    argument of [exit], and 1 after any other uncaught exception. *)
Definition exit_status {A} (o : outcome A) : Z :=
  match o with
  | Return _ => 0
  | Raise (SystemExit n) => n
  | Raise _ => 1
  end.

Definition bind {A B} (o : outcome A) (k : A -> outcome B) : outcome B :=
  match o with
  | Return a => k a
  | Raise e => Raise e
  end.

Definition code (c : ascii) : N := N_of_ascii c.

Definition between (lo hi n : N) : bool := (lo <=? n)%N && (n <=? hi)%N.

(** [str.isspace] on one character (code points below 256). *)
Definition isspace (c : ascii) : bool :=
  let n := code c in
  between 9 13 n || between 28 32 n || (n =? 133)%N || (n =? 160)%N.

(** [str.lower] on one character: ASCII and Latin-1 capitals move up by 32. *)
Definition lower_char (c : ascii) : ascii :=
  let n := code c in
  if between 65 90 n || (between 192 222 n && negb (n =? 215)%N)
  then ascii_of_N (n + 32) else c.

(** [str.upper] on one character.  The scripts apply [upper] to the keys of
    the loader table only, which are ASCII; code points from 128 on are left
    as they are. *)
Definition upper_char (c : ascii) : ascii :=
  let n := code c in
  if between 97 122 n then ascii_of_N (n - 32) else c.

Fixpoint smap (f : ascii -> ascii) (s : string) : string :=
  match s with
  | EmptyString => EmptyString
  | String c s' => String (f c) (smap f s')
  end.

Definition lower : string -> string := smap lower_char.
Definition upper : string -> string := smap upper_char.

Fixpoint lstrip (s : string) : string :=
  match s with
  | EmptyString => EmptyString
  | String c s' => if isspace c then lstrip s' else s
  end.

Fixpoint rstrip (s : string) : string :=
  match s with
  | EmptyString => EmptyString
  | String c s' =>
      match rstrip s' with
      | EmptyString => if isspace c then EmptyString else String c EmptyString
      | r => String c r
      end
  end.

(** [s.strip()] *)
Definition strip (s : string) : string := rstrip (lstrip s).

Fixpoint all_chars (p : ascii -> bool) (s : string) : bool :=
  match s with
  | EmptyString => true
  | String c s' => p c && all_chars p s'
  end.

(** [c in s] for one character. *)
Definition contains (c : ascii) (s : string) : bool :=
  negb (all_chars (fun c' => negb (Ascii.eqb c' c)) s).

Definition startswith (s : string) (c : ascii) : bool :=
  match s with
  | String c' _ => Ascii.eqb c' c
  | EmptyString => false
  end.

Fixpoint endswith_char (s : string) (c : ascii) : bool :=
  match s with
  | EmptyString => false
  | String c' EmptyString => Ascii.eqb c' c
  | String _ s' => endswith_char s' c
  end.

(** [s.endswith(suffix)] *)
Definition endswith (s suffix : string) : bool :=
  let n := String.length s in
  let m := String.length suffix in
  (m <=? n)%nat && String.eqb (String.substring (n - m) m s) suffix.

(** The text after the last ["."] of [s], when [s] has one. *)
Fixpoint after_last_dot (s : string) : option string :=
  match s with
  | EmptyString => None
  | String c s' =>
      match after_last_dot s' with
      | Some t => Some t
      | None => if Ascii.eqb c "." then Some s' else None
      end
  end.

(** [s.rsplit(".", 1)[-1]]: the last piece, the whole of [s] without a dot. *)
Definition rsplit_dot_last (s : string) : string :=
  match after_last_dot s with
  | Some t => t
  | None => s
  end.

(** [str(n)] for an integer. *)
Definition str_of_int (n : Z) : string :=
  NilZero.string_of_int (Z.to_int n).

(** [len(l)] *)
Definition len {A} (l : list A) : Z := Z.of_nat (length l).

(** The line feed, written ["\n"] in the scripts. *)
Definition nl : string := String (ascii_of_N 10) EmptyString.

(** *** [int(x, base)] *)

(** White space around the numeral: the C locale's, and the two Latin-1
    spaces that [int] first turns into a blank. *)
Definition int_isspace (c : ascii) : bool :=
  let n := code c in
  between 9 13 n || (n =? 32)%N || (n =? 133)%N || (n =? 160)%N.

Fixpoint lstrip_with (p : ascii -> bool) (s : string) : string :=
  match s with
  | EmptyString => EmptyString
  | String c s' => if p c then lstrip_with p s' else s
  end.

Definition digit_value (c : ascii) : option Z :=
  let n := code c in
  if between 48 57 n then Some (Z.of_N n - 48)%Z
  else if between 97 122 n then Some (Z.of_N n - 87)%Z
  else if between 65 90 n then Some (Z.of_N n - 55)%Z
  else None.

Definition digit_in (base : Z) (c : ascii) : option Z :=
  match digit_value c with
  | Some d => if (d <? base)%Z then Some d else None
  | None => None
  end.

(** Digits after the first one; a single ["_"] may separate two digits.
    Returns the value and the text left over, [None] on a misplaced ["_"]. *)
Fixpoint more_digits (base acc : Z) (s : string) : option (Z * string) :=
  match s with
  | EmptyString => Some (acc, EmptyString)
  | String c s' =>
      if Ascii.eqb c "_" then
        match s' with
        | String d s'' =>
            match digit_in base d with
            | Some v => more_digits base (acc * base + v) s''
            | None => None
            end
        | EmptyString => None
        end
      else
        match digit_in base c with
        | Some v => more_digits base (acc * base + v) s'
        | None => Some (acc, s)
        end
  end.

Definition digits (base : Z) (s : string) : option (Z * string) :=
  match s with
  | String c s' =>
      match digit_in base c with
      | Some v => more_digits base v s'
      | None => None
      end
  | EmptyString => None
  end.

(** The prefix ["0o"], ["0x"] or ["0b"] that goes with the base, and one
    ["_"] after it. *)
Definition skip_prefix (base : Z) (s : string) : string :=
  match s with
  | String z (String p rest) =>
      let l := lower_char p in
      if Ascii.eqb z "0"
         && (((base =? 16)%Z && Ascii.eqb l "x")
             || ((base =? 8)%Z && Ascii.eqb l "o")
             || ((base =? 2)%Z && Ascii.eqb l "b"))
      then match rest with
           | String u rest' => if Ascii.eqb u "_" then rest' else rest
           | EmptyString => rest
           end
      else s
  | _ => s
  end.

Definition skip_sign (s : string) : Z * string :=
  match s with
  | String c s' =>
      if Ascii.eqb c "+" then (1%Z, s')
      else if Ascii.eqb c "-" then ((-1)%Z, s')
      else (1%Z, s)
  | EmptyString => (1%Z, s)
  end.

(** The characters a text that [int] accepts for [base] can hold: white
    space, a sign, the underscore, the letters of the prefixes, and the digits
    of the base. *)
Definition numeral_char (base : Z) (c : ascii) : bool :=
  int_isspace c
  || Ascii.eqb c "+" || Ascii.eqb c "-" || Ascii.eqb c "_" || Ascii.eqb c "0"
  || Ascii.eqb (lower_char c) "x" || Ascii.eqb (lower_char c) "o"
  || Ascii.eqb (lower_char c) "b"
  || match digit_in base c with Some _ => true | None => false end.

(** [int(x, base)] with an explicit base between 2 and 36. [x] is [None]
    when the Python argument is [None]. *)
Definition int_base (x : option string) (base : Z) : outcome Z :=
  match x with
  | None => Raise (TypeError "int() can't convert non-string with explicit base")
  | Some s =>
      let '(sign, body) := skip_sign (lstrip_with int_isspace s) in
      match digits base (skip_prefix base body) with
      | Some (v, rest) =>
          if all_chars int_isspace rest then Return (sign * v)%Z
          else Raise (InvalidLiteral base s)
      | None => Raise (InvalidLiteral base s)
      end
  end.

End Py.

(** ** The file system as [glob] sees it *)
Module Fs.
Import Py.

(** One directory entry: a file, or a directory with its own entries, in the
    order the directory lists them. *)
#[warnings="-register-all"]
Inductive entry :=
| File (name : string)
| Dir (name : string) (children : list entry).

Definition entry_name (e : entry) : string :=
  match e with
  | File n => n
  | Dir n _ => n
  end.

(** [os.path.join(a, b)] on POSIX. *)
Definition os_path_join (a b : string) : string :=
  if startswith b "/" then b
  else if String.eqb a "" || endswith_char a "/" then a +:+ b
  else a +:+ "/" +:+ b.

(** [glob._ishidden] *)
Definition ishidden (name : string) : bool := startswith name ".".

(** [glob.has_magic]: the text holds a pattern character. *)
Definition has_magic (s : string) : bool :=
  negb (all_chars (fun c => negb (Ascii.eqb c "*" || Ascii.eqb c "?" || Ascii.eqb c "[")) s).

Fixpoint rstrip_slashes (s : string) : string :=
  match s with
  | EmptyString => EmptyString
  | String c s' =>
      match rstrip_slashes s' with
      | EmptyString => if Ascii.eqb c "/" then EmptyString else String c EmptyString
      | r => String c r
      end
  end.

(** The literal directory part [glob] keeps of the pattern
    [os.path.join(source_dir, "**/*" + ext)]: what two [os.path.split] leave,
    that is [source_dir] without its trailing slashes, unless it is made of
    slashes only. *)
Definition glob_dirname (source_dir : string) : string :=
  if all_chars (fun c => Ascii.eqb c "/") source_dir then source_dir
  else rstrip_slashes source_dir.

(** The path under which [glob] reports an entry [name] that lies in
    [source_dir] itself. *)
Definition child_path (source_dir name : string) : string :=
  os_path_join (os_path_join (glob_dirname source_dir) "") name.

(** [glob._rlistdir] with [dironly]: every directory below, hidden ones
    skipped with all they hold, each with its path relative to the start and
    its own listing, parents before children. *)
Fixpoint rlistdir_entry (e : entry) : list (string * list entry) :=
  match e with
  | File _ => []
  | Dir x children =>
      if ishidden x then []
      else (x, children)
           :: map (fun yc => (os_path_join x (fst yc), snd yc))
                  (flat_map rlistdir_entry children)
  end.

Definition rlistdir (listing : list entry) : list (string * list entry) :=
  flat_map rlistdir_entry listing.

(** [glob._glob1(dirname, "*" + suffix)]: the names of a listing that are not
    hidden and end with [suffix] ([fnmatch] on POSIX compares case as it is). *)
Definition glob1 (listing : list entry) (suffix : string) : list string :=
  filter (fun n => endswith n suffix = true)
         (filter (fun n => ishidden n = false) (map entry_name listing)).

(** The directories [glob] visits for the pattern
    [os.path.join(source_dir, "**")], each with the path [glob] gives it and
    its listing. A [source_dir] without pattern characters is taken as it is
    written: [root] is the listing of the directory it names (empty when there
    is none), and the directories below are visited after it. A [source_dir]
    that holds a pattern character is expanded against the file system
    instead; [expand] gives the directories that expansion visits, which may
    lie elsewhere and may come more than once. *)
Definition visited (expand : string -> list (string * list entry))
    (source_dir : string) (root : list entry) : list (string * list entry) :=
  if has_magic source_dir then expand source_dir
  else map (fun rc => (os_path_join (glob_dirname source_dir) (fst rc), snd rc))
           (("", root) :: rlistdir root).

(** [glob.glob(os.path.join(source_dir, "**/*" + suffix), recursive=True)],
    for a [suffix] without pattern characters: in each directory visited, the
    matching names, joined to the path of the directory. *)
Definition glob_recursive (expand : string -> list (string * list entry))
    (source_dir : string) (root : list entry) (suffix : string) : list string :=
  flat_map
    (fun rc => map (os_path_join (fst rc)) (glob1 (snd rc) suffix))
    (visited expand source_dir root).

End Fs.

(** ** Process environment *)
Module Env.

(** [load_dotenv()]: bindings of the [.env] file are added to the process
    environment without replacing a variable that is already set; the result
    is [True] when the file holds a binding. [dotenv] is the parsed file, empty
    for a missing one. *)
Definition load_dotenv (dotenv environ : gmap string string)
    : bool * gmap string string :=
  (negb (bool_decide (dotenv = ∅)), environ ∪ dotenv).

(** An optional value inside an f-string: [None] prints as its name. *)
Definition fmt (v : option string) : string := default "None" v.

End Env.

(** ** constants.py *)
Module Constants.
Import Py Env.

(** [chromadb.config.Settings], the two fields the scripts set. *)
Record Settings := {
  persist_directory : string;
  anonymized_telemetry : bool
}.

(** The module body: returns the environment [load_dotenv] leaves and
    [CHROMA_SETTINGS], or the exception the import raises. *)
Definition import_constants (dotenv environ : gmap string string)
    : gmap string string * outcome Settings :=
  let environ := snd (load_dotenv dotenv environ) in
  (environ,
   match environ !! "PERSIST_DIRECTORY" with
   | None => Raise (Exception "Please set the PERSIST_DIRECTORY environment variable")
   | Some PERSIST_DIRECTORY =>
       Return {| persist_directory := PERSIST_DIRECTORY;
                 anonymized_telemetry := false |}
   end).

End Constants.

(** ** ingest.py *)
Module Ingest.
Import Py Env Fs.

(** [langchain]'s [Document]: the text and the metadata mapping. The loaders
    put the path they were given under the key ["source"]. *)
Record Document := {
  page_content : string;
  metadata : gmap string string
}.

Inductive loader_class :=
| CSVLoader
| EverNoteLoader
| TextLoader
| UnstructuredEPubLoader
| UnstructuredHTMLLoader
| UnstructuredMarkdownLoader
| UnstructuredODTLoader
| UnstructuredPowerPointLoader
| UnstructuredWordDocumentLoader
| PyMuPDFLoader.

(** A loader table: extension, loader class and keyword arguments, in
    insertion order. *)
Definition registry : Type := list (string * (loader_class * list (string * string))).

Definition LOADER_MAPPING : registry :=
  [ (".csv", (CSVLoader, []));
    (".doc", (UnstructuredWordDocumentLoader, []));
    (".docx", (UnstructuredWordDocumentLoader, []));
    (".enex", (EverNoteLoader, []));
    (".epub", (UnstructuredEPubLoader, []));
    (".html", (UnstructuredHTMLLoader, []));
    (".md", (UnstructuredMarkdownLoader, []));
    (".odt", (UnstructuredODTLoader, []));
    (".ppt", (UnstructuredPowerPointLoader, []));
    (".pptx", (UnstructuredPowerPointLoader, []));
    (".pdf", (PyMuPDFLoader, []));
    (".txt", (TextLoader, [("encoding", "utf8")])) ].

(** [reg[ext]], [None] when [ext in reg] is false. *)
Fixpoint registry_get (reg : registry) (ext : string)
    : option (loader_class * list (string * string)) :=
  match reg with
  | [] => None
  | (k, v) :: reg' => if String.eqb k ext then Some v else registry_get reg' ext
  end.

(** What [print] wrote and which calls reached the splitter and the store. *)
Inductive event :=
| Print (line : string)
| SplitDocuments (documents : list Document)
| AddDocuments (texts : list Document)
| FromDocuments (texts : list Document)
| Persist.

(** The records of the vector store at [persist_directory] and the trace of
    the run. *)
Record world := {
  store : list Document;
  log : list event
}.

Definition M (A : Type) : Type := world -> outcome A * world.

Definition ret {A} (a : A) : M A := fun w => (Return a, w).

Definition raise {A} (e : exn) : M A := fun w => (Raise e, w).

Definition bindM {A B} (m : M A) (k : A -> M B) : M B :=
  fun w =>
    match m w with
    | (Return a, w') => k a w'
    | (Raise e, w') => (Raise e, w')
    end.

Definition lift {A} (o : outcome A) : M A := fun w => (o, w).

Definition emit (e : event) : M unit :=
  fun w => (Return tt, {| store := store w; log := log w ++ [e] |}).

Definition print (line : string) : M unit := emit (Print line).

Definition exit {A} (status : Z) : M A := raise (SystemExit status).

Notation "x <~ m ;; k" := (bindM m (fun x => k))
  (at level 100, m at next level, right associativity).
Notation "m ;;; k" := (bindM m (fun _ => k))
  (at level 100, right associativity).

(** The module globals [main] and [process_documents] read. *)
Record config := {
  chunk_size : Z;
  chunk_overlap : Z;
  persist_directory : option string;
  source_directory : string;
  embeddings_model_name : option string;
  CHROMA_SETTINGS : Constants.Settings
}.

(** The module body up to the definitions: import of [constants], the check
    on [load_dotenv], the configurable parameters. Returns the lines printed
    and the globals. *)
Definition import_ingest (dotenv environ : gmap string string)
    : list string * outcome config :=
  match Constants.import_constants dotenv environ with
  | (_, Raise e) => ([], Raise e)
  | (environ, Return settings) =>
      let '(loaded, environ) := load_dotenv dotenv environ in
      if negb loaded then
        (["Could not load .env file or it is empty. Please check it exists and is readable."],
         Raise (SystemExit 1))
      else
        ([], Return {| chunk_size := 1000;
                       chunk_overlap := 100;
                       persist_directory := environ !! "PERSIST_DIRECTORY";
                       source_directory := default "source_documents" (environ !! "SOURCE_DIRECTORY");
                       embeddings_model_name := environ !! "EMBEDDINGS_MODEL_NAME";
                       CHROMA_SETTINGS := settings |})
  end.

Section Run.

(** [loader_class(file_path, **loader_args).load()] *)
Variable load : loader_class -> list (string * string) -> string -> outcome (list Document).

(** The order in which the pool hands back the results of the submitted
    paths ([imap_unordered]). *)
Variable arrival : list string -> list string.

(** [RecursiveCharacterTextSplitter(chunk_size, chunk_overlap).split_documents] *)
Variable split_documents : Z -> Z -> list Document -> list Document.

(** The listing of the source directory. *)
Variable root : list entry.

(** What [glob] visits for a source directory whose name holds a pattern
    character (see [Fs.visited]). *)
Variable expand : string -> list (string * list entry).

(** The construction of the embedding model and of the Chroma client, the
    first two statements of [main]: library calls that may raise. *)
Variable open_store : config -> outcome unit.

(** The embedding of the texts, which [add_documents] and [from_documents]
    run before they write. *)
Variable embed : list Document -> outcome unit.

(** The write of the embedded texts into the Chroma collection: a library
    call that may raise on its own, as it does for no text at all. *)
Variable write : list Document -> outcome unit.

(** The globals of the module. *)
Variable cfg : config.

(** The function reads the table it is given and hands it back: the second
    component is the table after the call. *)
Definition load_single_document (file_path : string) (reg : registry)
    : outcome (list Document) * registry :=
  let ext := "." +:+ lower (rsplit_dot_last file_path) in
  match registry_get reg ext with
  | Some (loader_class, loader_args) => (load loader_class loader_args file_path, reg)
  | None => (Raise (ValueError ("Unsupported file extension '" +:+ ext +:+ "'")), reg)
  end.

(** The first loop of [load_documents]: for each key, the matches of the
    lower-case pattern, then those of the upper-case one. *)
Definition all_files (source_dir : string) : list string :=
  flat_map
    (fun kv => glob_recursive expand source_dir root (lower (fst kv))
               ++ glob_recursive expand source_dir root (upper (fst kv)))
    LOADER_MAPPING.

Definition filtered_files (source_dir : string) (ignored_files : list string)
    : list string :=
  filter (fun file_path => file_path ∉ ignored_files) (all_files source_dir).

(** The loop over the results of the pool: the documents are appended as
    they arrive; the exception of a worker is raised again in the parent when
    its turn comes. Each worker runs on its own copy of the module. *)
Fixpoint collect (results : list Document) (paths : list string)
    : outcome (list Document) :=
  match paths with
  | [] => Return results
  | file_path :: paths' =>
      match fst (load_single_document file_path LOADER_MAPPING) with
      | Return docs => collect (results ++ docs) paths'
      | Raise e => Raise e
      end
  end.

(** The progress bar writes to the terminal only and is left out. *)
Definition load_documents (source_dir : string) (ignored_files : list string)
    : outcome (list Document) :=
  collect [] (arrival (filtered_files source_dir ignored_files)).

Definition process_documents (ignored_files : list string) : M (list Document) :=
  print ("Loading documents from " +:+ source_directory cfg) ;;;
  documents <~ lift (load_documents (source_directory cfg) ignored_files) ;;
  match documents with
  | [] => print "No new documents to load" ;;; exit 0
  | _ =>
      print ("Loaded " +:+ str_of_int (len documents)
             +:+ " new documents from " +:+ source_directory cfg) ;;;
      emit (SplitDocuments documents) ;;;
      let texts := split_documents (chunk_size cfg) (chunk_overlap cfg) documents in
      print ("Split into " +:+ str_of_int (len texts)
             +:+ " chunks of text (max. " +:+ str_of_int (chunk_size cfg)
             +:+ " tokens each)") ;;;
      ret texts
  end.

(** [bool(db.get()['documents'])] *)
Definition does_vectorstore_exist : M bool :=
  fun w => (Return (negb (bool_decide (store w = []))), w).

(** [db.get()] *)
Definition get_collection : M (list Document) := fun w => (Return (store w), w).

(** [[metadata['source'] for metadata in collection['metadatas']]]. A
    record written with an empty metadata mapping is stored without metadata,
    and the collection hands back [None] for it, which cannot be subscripted. *)
Fixpoint sources (records : list Document) : outcome (list string) :=
  match records with
  | [] => Return []
  | r :: records' =>
      match metadata r !! "source" with
      | None =>
          if bool_decide (metadata r = ∅)
          then Raise (TypeError "'NoneType' object is not subscriptable")
          else Raise (KeyError "source")
      | Some s => bind (sources records') (fun l => Return (s :: l))
      end
  end.

(** [db.add_documents(texts)] and [Chroma.from_documents(texts, ...)]: the
    texts are embedded, then written; when both calls succeed one record per
    text has been added to the collection. *)
Definition add_documents (texts : list Document) : M unit :=
  emit (AddDocuments texts) ;;;
  lift (embed texts) ;;;
  lift (write texts) ;;;
  fun w => (Return tt, {| store := store w ++ texts; log := log w |}).

Definition from_documents (texts : list Document) : M unit :=
  emit (FromDocuments texts) ;;;
  lift (embed texts) ;;;
  lift (write texts) ;;;
  fun w => (Return tt, {| store := store w ++ texts; log := log w |}).

Definition main : M unit :=
  lift (open_store cfg) ;;;
  exists_ <~ does_vectorstore_exist ;;
  (if exists_ : bool then
     print ("Appending to existing vectorstore at " +:+ fmt (persist_directory cfg)) ;;;
     collection <~ get_collection ;;
     ignored <~ lift (sources collection) ;;
     texts <~ process_documents ignored ;;
     print "Creating embeddings. This may take a few minutes..." ;;;
     add_documents texts
   else
     print "Creating new vectorstore" ;;;
     texts <~ process_documents [] ;;
     print "Creating embeddings. This may take a few minutes..." ;;;
     from_documents texts) ;;;
  emit Persist ;;;
  print "Ingestion complete! You can now run PrivateGPT.py to query your documents.".

End Run.

(** The script: the module body, then [main()] on the store as it is found. *)
Definition script
    (load : loader_class -> list (string * string) -> string -> outcome (list Document))
    (arrival : list string -> list string)
    (split_documents : Z -> Z -> list Document -> list Document)
    (root : list entry)
    (expand : string -> list (string * list entry))
    (open_store : config -> outcome unit)
    (embed write : list Document -> outcome unit)
    (dotenv environ : gmap string string)
    (records : list Document) : outcome unit * world :=
  match import_ingest dotenv environ with
  | (printed, Raise e) => (Raise e, {| store := records; log := map Print printed |})
  | (printed, Return cfg) =>
      main load arrival split_documents root expand open_store embed write cfg
           {| store := records; log := map Print printed |}
  end.

End Ingest.

(** ** privateGPT.py *)
Module PrivateGPT.
Import Py Env.

(** The module globals. [model_n_ctx] stays the text of the environment. *)
Record config := {
  embeddings_model_name : option string;
  persist_directory : option string;
  model_type : option string;
  model_path : option string;
  model_n_ctx : option string;
  model_n_batch : Z;
  target_source_chunks : Z;
  CHROMA_SETTINGS : Constants.Settings
}.

(** [from langchain.llms import GPT4All, Llamacpp]: the two names are looked
    up in turn among those the module provides, [llms]; the first that is
    missing stops the import. *)
Definition import_llms (llms : list string) : outcome unit :=
  if bool_decide ("GPT4All" ∈ llms) then
    if bool_decide ("Llamacpp" ∈ llms) then Return tt
    else Raise (ImportError "Llamacpp" "langchain.llms")
  else Raise (ImportError "GPT4All" "langchain.llms").

(** The assignments that read the configuration, with [CHROMA_SETTINGS] as
    imported from [constants]. *)
Definition read_settings (environ : gmap string string)
    (settings : Constants.Settings) : outcome config :=
  bind (int_base (environ !! "MODEL_N_BATCH") 8) (fun n_batch =>
  bind (int_base (environ !! "TARGET_SOURCE_CHUNKS") 4) (fun chunks =>
  Return {| embeddings_model_name := environ !! "EMBEDDINGS_MODEL_NAME";
            persist_directory := environ !! "PERSIST_DIRECTORY";
            model_type := environ !! "MODEL_TYPE";
            model_path := environ !! "MODEL_PATH";
            model_n_ctx := environ !! "MODEL_N_CTX";
            model_n_batch := n_batch;
            target_source_chunks := chunks;
            CHROMA_SETTINGS := settings |})).

(** The module body up to the definitions: the import from [langchain.llms],
    the import of [constants], the check on [load_dotenv], the configuration.
    Returns the lines printed and the globals, or the exception that stops the
    import. The other imports name what their libraries provide. *)
Definition import_privateGPT (llms : list string) (dotenv environ : gmap string string)
    : list string * outcome config :=
  match import_llms llms with
  | Raise e => ([], Raise e)
  | Return _ =>
      match Constants.import_constants dotenv environ with
      | (_, Raise e) => ([], Raise e)
      | (environ, Return settings) =>
          let '(loaded, environ) := load_dotenv dotenv environ in
          if negb loaded then
            (["Could not load .env file or it is empty. Please check if it exists and is readable."],
             Raise (SystemExit 1))
          else ([], read_settings environ settings)
      end
  end.

(** The result of [parse_arguments()]. *)
Record arguments := {
  hide_source : bool;
  mute_stream : bool
}.

Inductive callback := StreamingStdOutCallbackHandler.

(** The two language model objects, with the arguments [main] gives them. *)
Inductive llm :=
| Llamacpp (model_path : option string) (max_tokens : option string)
    (n_batch : Z) (callbacks : list callback) (verbose : bool)
| GPT4All (model : option string) (max_tokens : option string) (backend : string)
    (n_batch : Z) (callbacks : list callback) (verbose : bool).

(** [RetrievalQA.from_chain_type(...)] over [db.as_retriever(search_kwargs={"k": k})] *)
Record chain := {
  chain_llm : llm;
  chain_type : string;
  retriever_k : Z;
  return_source_documents : bool
}.

(** What a call of the chain gives back. [seconds] is the text of
    [round(end - start, 2)] for that call: the clock is a floating point one
    and is taken with the answer. *)
Record answer := {
  result : string;
  source_documents : list Ingest.Document;
  seconds : string
}.

(** The terminal: the prompt of [input], the lines of [print], and the calls
    of the chain, which retrieve and generate. *)
Inductive event :=
| Prompt (text : string)
| Ask (query : string)
| Print (line : string).

(** The queries handed to the chain, read off a trace in order. *)
Definition asked (log : list event) : list string :=
  flat_map (fun e => match e with Ask query => [query] | _ => [] end) log.

(** The two lines [main] prints for a source document. *)
Definition source_lines (document : Ingest.Document) : list event :=
  [Print (nl +:+ "> " +:+ default "" (Ingest.metadata document !! "source") +:+ ":");
   Print (Ingest.page_content document)].

(** A value compared with a literal by [==]; [None] equals no text. *)
Definition eq_literal (v : option string) (literal : string) : bool :=
  match v with
  | Some s => String.eqb s literal
  | None => false
  end.

Section Run.

(** [qa(query)] *)
Variable qa : chain -> string -> outcome answer.

(** The construction of the embedding model, the Chroma client, the store
    and the retriever, the first statements of [main]: library calls that may
    raise. *)
Variable open_retriever : config -> outcome unit.

(** The construction of the language model chosen by the [match] and of the
    chain around it. *)
Variable build_chain : chain -> outcome unit.

Variable cfg : config.

Variable args : arguments.

(** The [match] statement of [main]. *)
Definition select_llm (callbacks : list callback) : outcome llm :=
  if eq_literal (model_type cfg) "LlamaCpp" then
    Return (Llamacpp (model_path cfg) (model_n_ctx cfg) (model_n_batch cfg) callbacks false)
  else if eq_literal (model_type cfg) "GPT4ALL" then
    Return (GPT4All (model_path cfg) (model_n_ctx cfg) "gptj" (model_n_batch cfg) callbacks false)
  else
    Raise (Exception ("Model Type " +:+ fmt (model_type cfg)
                      +:+ " is not supported. Please choose either 'LlamaCpp' or 'GPT4All'")).

(** The last loop of an iteration: each source and its text. *)
Fixpoint print_sources (docs : list Ingest.Document) (log : list event)
    : outcome unit * list event :=
  match docs with
  | [] => (Return tt, log)
  | document :: docs' =>
      match Ingest.metadata document !! "source" with
      | None => (Raise (KeyError "source"), log)
      | Some source =>
          print_sources docs'
            (log ++ [Print (nl +:+ "> " +:+ source +:+ ":");
                     Print (Ingest.page_content document)])
      end
  end.

(** The text [input] shows. *)
Definition the_prompt : event := Prompt (nl +:+ " Enter a query: ").

(** The end of an iteration, for a query that is neither the sentinel nor
    blank: the chain is called, the question, the answer and the sources are
    printed, and the loop goes on ([continue]). *)
Definition answer_query (continue : list event -> outcome unit * list string * list event)
    (qa_chain : chain) (query : string) (stdin' : list string) (log : list event)
    : outcome unit * list string * list event :=
  match qa qa_chain query with
  | Raise e => (Raise e, stdin', log ++ [Ask query])
  | Return res =>
      let docs := if hide_source args then [] else source_documents res in
      let log := log ++ [Ask query;
                         Print (nl +:+ nl +:+ " > Question:");
                         Print query;
                         Print (nl +:+ "> Answer (took " +:+ seconds res +:+ "s.):");
                         Print (result res)] in
      match print_sources docs log with
      | (Raise e, log) => (Raise e, stdin', log)
      | (Return _, log) => continue log
      end
  end.

(** The [while True] loop. [stdin] holds the lines still to be typed; the
    result carries the lines left unread and the trace. At the end of the
    input [input] raises [EOFError]. *)
Fixpoint query_loop (qa_chain : chain) (stdin : list string) (log : list event)
    : outcome unit * list string * list event :=
  match stdin with
  | [] => (Raise EOFError, [], log ++ [the_prompt])
  | query :: stdin' =>
      let log := log ++ [the_prompt] in
      if String.eqb query "exit" then (Return tt, stdin', log)
      else if String.eqb (strip query) "" then query_loop qa_chain stdin' log
      else answer_query (query_loop qa_chain stdin') qa_chain query stdin' log
  end.

(** [main()] *)
Definition main (stdin : list string) : outcome unit * list string * list event :=
  match open_retriever cfg with
  | Raise e => (Raise e, stdin, [])
  | Return _ =>
      let callbacks := if mute_stream args then [] else [StreamingStdOutCallbackHandler] in
      match select_llm callbacks with
      | Raise e => (Raise e, stdin, [])
      | Return llm =>
          let qa_chain := {| chain_llm := llm;
                             chain_type := "stuff";
                             retriever_k := target_source_chunks cfg;
                             return_source_documents := negb (hide_source args) |} in
          match build_chain qa_chain with
          | Raise e => (Raise e, stdin, [])
          | Return _ => query_loop qa_chain stdin []
          end
      end
  end.

End Run.

(** The script: the module body, then [main()]. *)
Definition script (qa : chain -> string -> outcome answer)
    (open_retriever : config -> outcome unit) (build_chain : chain -> outcome unit)
    (args : arguments) (llms : list string) (dotenv environ : gmap string string)
    (stdin : list string)
    : outcome unit * list string * list event :=
  match import_privateGPT llms dotenv environ with
  | (printed, Raise e) => (Raise e, stdin, map Print printed)
  | (printed, Return cfg) =>
      match main qa open_retriever build_chain cfg args stdin with
      | (o, stdin', log) => (o, stdin', map Print printed ++ log)
      end
  end.

End PrivateGPT.

(** ** Sample runs *)
Module Sample.
Import Py Env Fs.

(** A document as a loader makes it for [path]. *)
Definition doc (path : string) : Ingest.Document :=
  {| Ingest.page_content := "text of " +:+ path;
     Ingest.metadata := {[ "source" := path ]} |}.

(** Loaders that cannot read [a.txt] and read every other file. *)
Definition load_but_a (_ : Ingest.loader_class) (_ : list (string * string))
    (path : string) : outcome (list Ingest.Document) :=
  if String.eqb path "source_documents/a.txt"
  then Raise (Exception "a.txt cannot be decoded")
  else Return [doc path].

(** Loaders that read every file. *)
Definition load_any (_ : Ingest.loader_class) (_ : list (string * string))
    (path : string) : outcome (list Ingest.Document) :=
  Return [doc path].

(** A pool that hands the results back in submission order, and one that
    hands them back last first. *)
Definition in_order (paths : list string) : list string := paths.
Definition last_first (paths : list string) : list string := rev paths.

(** A splitter that leaves the documents whole. *)
Definition no_split (_ _ : Z) (docs : list Ingest.Document) : list Ingest.Document := docs.

Definition ingest_cfg : Ingest.config :=
  {| Ingest.chunk_size := 1000;
     Ingest.chunk_overlap := 100;
     Ingest.persist_directory := Some "db";
     Ingest.source_directory := "source_documents";
     Ingest.embeddings_model_name := Some "BAAI/bge-small-en";
     Ingest.CHROMA_SETTINGS :=
       {| Constants.persist_directory := "db";
          Constants.anonymized_telemetry := false |} |}.

(** A complete [.env] file, numerals as the scripts read them. *)
Definition dotenv : gmap string string :=
  list_to_map
    [ ("PERSIST_DIRECTORY", "db");
      ("MODEL_TYPE", "GPT4ALL");
      ("MODEL_PATH", "models/ggml-gpt4all-j.bin");
      ("EMBEDDINGS_MODEL_NAME", "BAAI/bge-small-en");
      ("MODEL_N_CTX", "1000");
      ("MODEL_N_BATCH", "10");
      ("TARGET_SOURCE_CHUNKS", "10") ].

(** A chain that answers every query the same way. *)
Definition qa (_ : PrivateGPT.chain) (_ : string) : outcome PrivateGPT.answer :=
  Return {| PrivateGPT.result := "It depends on the contract.";
            PrivateGPT.source_documents := [doc "source_documents/c.txt"];
            PrivateGPT.seconds := "1.25" |}.

(** A document whose metadata lacks the source. *)
Definition stray_doc : Ingest.Document :=
  {| Ingest.page_content := "text without a source"; Ingest.metadata := ∅ |}.

(** A document whose metadata holds a page and no source. *)
Definition paged_doc : Ingest.Document :=
  {| Ingest.page_content := "text of a page"; Ingest.metadata := {[ "page" := "3" ]} |}.

(** A source directory with a plain name: nothing to expand. *)
Definition no_expand (_ : string) : list (string * list Fs.entry) := [].

(** Some of the names [langchain.llms] provides; [Llamacpp] is not one of
    them. *)
Definition langchain_llms : list string :=
  ["AI21"; "Anthropic"; "GPT4All"; "HuggingFaceHub"; "LlamaCpp"; "OpenAI"].

(** The same with [Llamacpp] made an alias of [LlamaCpp]. *)
Definition aliased_llms : list string := "Llamacpp" :: langchain_llms.

(** Library constructors that succeed. *)
Definition opens {A} (_ : A) : outcome unit := Return tt.

Definition args : PrivateGPT.arguments :=
  {| PrivateGPT.hide_source := false; PrivateGPT.mute_stream := false |}.

Definition cfg_of (model_type : option string) : PrivateGPT.config :=
  {| PrivateGPT.embeddings_model_name := Some "BAAI/bge-small-en";
     PrivateGPT.persist_directory := Some "db";
     PrivateGPT.model_type := model_type;
     PrivateGPT.model_path := Some "models/ggml-gpt4all-j.bin";
     PrivateGPT.model_n_ctx := Some "1000";
     PrivateGPT.model_n_batch := 8;
     PrivateGPT.target_source_chunks := 4;
     PrivateGPT.CHROMA_SETTINGS :=
       {| Constants.persist_directory := "db";
          Constants.anonymized_telemetry := false |} |}.

Definition a_chain : PrivateGPT.chain :=
  {| PrivateGPT.chain_llm :=
       PrivateGPT.GPT4All (Some "models/ggml-gpt4all-j.bin") (Some "1000") "gptj" 8
         [PrivateGPT.StreamingStdOutCallbackHandler] false;
     PrivateGPT.chain_type := "stuff";
     PrivateGPT.retriever_k := 4;
     PrivateGPT.return_source_documents := true |}.

End Sample.

(** * Properties *)

(** ** The answering loop *)
Section AnswerLoop.
Import Py Env PrivateGPT.

Variable qa : chain -> string -> outcome answer.
Variable open_retriever : config -> outcome unit.
Variable build_chain : chain -> outcome unit.
Variable cfg : config.
Variable args : arguments.

Lemma lstrip_blank (s : string) :
  all_chars isspace s = true -> lstrip s = "".
Proof.
  induction s as [|c s IH]; simpl; [done|].
  intros [Hc Hs]%andb_prop. rewrite Hc. auto.
Qed.

Lemma strip_blank (s : string) :
  all_chars isspace s = true -> strip s = "".
Proof. intros H. unfold strip. by rewrite lstrip_blank. Qed.

Lemma blank_is_not_sentinel (s : string) :
  all_chars isspace s = true -> String.eqb s "exit" = false.
Proof.
  intros H. destruct (String.eqb_spec s "exit") as [->|]; [|done].
  by vm_compute in H.
Qed.

Lemma not_the_literal (v : option string) (literal : string) :
  v <> Some literal -> eq_literal v literal = false.
Proof.
  destruct v as [s|]; simpl; [|done].
  intros Hne. apply String.eqb_neq. congruence.
Qed.

(** C3. When the configured model type is neither ["LlamaCpp"] nor ["GPT4ALL"],
    [main] ends in an exception with no line of the input read and nothing,
    not even the prompt, written; once the store has been opened, that
    exception is the one of the [match], whose message holds the configured
    value. *)
Theorem unsupported_model_type_fails_fast (stdin : list string) :
  model_type cfg <> Some "LlamaCpp" ->
  model_type cfg <> Some "GPT4ALL" ->
  (exists e, main qa open_retriever build_chain cfg args stdin = (Raise e, stdin, []))
  /\ (open_retriever cfg = Return tt ->
      main qa open_retriever build_chain cfg args stdin
      = (Raise (Exception ("Model Type " +:+ fmt (model_type cfg)
                           +:+ " is not supported. Please choose either 'LlamaCpp' or 'GPT4All'")),
         stdin, [])).
Proof.
  intros Hl Hg. unfold main, select_llm.
  rewrite (not_the_literal _ _ Hl), (not_the_literal _ _ Hg).
  split.
  - destruct (open_retriever cfg) as [[]|e]; eauto.
  - by intros ->.
Qed.

(** C6. A query that is empty or made of white space only costs one prompt:
    the chain is not called, nothing is printed, and the loop goes on with the
    next line of the input. *)
Theorem blank_query_is_skipped (qa_chain : chain) (query : string)
    (stdin : list string) (log : list event) :
  all_chars isspace query = true ->
  query_loop qa args qa_chain (query :: stdin) log
  = query_loop qa args qa_chain stdin (log ++ [the_prompt]).
Proof.
  intros Hblank. simpl.
  rewrite (blank_is_not_sentinel _ Hblank), (strip_blank _ Hblank).
  done.
Qed.


End AnswerLoop.

Import Py Env PrivateGPT.

Lemma unsupported_model_type_fails_fast_witness :
  model_type (Sample.cfg_of (Some "Foo")) <> Some "LlamaCpp"
  /\ model_type (Sample.cfg_of (Some "Foo")) <> Some "GPT4ALL"
  /\ main Sample.qa Sample.opens Sample.opens (Sample.cfg_of (Some "Foo")) Sample.args
       ["What is retention?"]
     = (Raise (Exception
          "Model Type Foo is not supported. Please choose either 'LlamaCpp' or 'GPT4All'"),
        ["What is retention?"], []).
Proof.
  assert (H1 : model_type (Sample.cfg_of (Some "Foo")) <> Some "LlamaCpp") by discriminate.
  assert (H2 : model_type (Sample.cfg_of (Some "Foo")) <> Some "GPT4ALL") by discriminate.
  split; [exact H1|]. split; [exact H2|].
  exact (proj2 (unsupported_model_type_fails_fast Sample.qa Sample.opens Sample.opens
                  (Sample.cfg_of (Some "Foo")) Sample.args ["What is retention?"] H1 H2)
           eq_refl).
Defined.

Lemma blank_query_is_skipped_witness :
  all_chars isspace "   " = true
  /\ query_loop Sample.qa Sample.args Sample.a_chain ["   "; "exit"] []
     = (Return tt, [], [the_prompt; the_prompt]).
Proof.
  split; [reflexivity|].
  rewrite (blank_query_is_skipped Sample.qa Sample.args Sample.a_chain "   " ["exit"] []).
  - reflexivity.
  - reflexivity.
Defined.


(** ** The loader table and the scan *)
Section Scan.
Import Fs Ingest.

Variable load : loader_class -> list (string * string) -> string -> outcome (list Document).
Variable arrival : list string -> list string.
Variable root : list entry.
Variable expand : string -> list (string * list entry).

Lemma registry_get_not_key (reg : registry) (ext : string) :
  ext ∉ map fst reg -> registry_get reg ext = None.
Proof.
  induction reg as [|[k v] reg IH]; simpl; [done|].
  intros Hnot. apply not_elem_of_cons in Hnot as [Hne Hnot].
  destruct (String.eqb_spec k ext) as [->|_]; [done|]. auto.
Qed.

Lemma registry_get_key (reg : registry) (ext : string) :
  ext ∈ map fst reg -> exists v, registry_get reg ext = Some v /\ (ext, v) ∈ reg.
Proof.
  induction reg as [|[k w] reg IH]; simpl.
  - intros H. by apply elem_of_nil in H.
  - intros H. destruct (String.eqb_spec k ext) as [->|Hne].
    + exists w. split; [done|]. apply elem_of_cons. by left.
    + apply elem_of_cons in H as [->|H]; [done|].
      destruct (IH H) as (v & Hv & Hin). exists v. split; [done|].
      apply elem_of_cons. by right.
Qed.

(** C8. [load_single_document] takes the text after the last dot of the path,
    in lower case and with a dot before it, as the key. When the key is not in
    the table the call raises an error whose message quotes the key; when the
    table binds the key, the call is the bound loader on the path with the
    bound arguments. In both cases the table is the same after the call. *)
Theorem load_single_document_dispatch (reg : registry) (file_path : string) :
  let ext := "." +:+ lower (rsplit_dot_last file_path) in
  (ext ∉ map fst reg ->
   load_single_document load file_path reg
   = (Raise (ValueError ("Unsupported file extension '" +:+ ext +:+ "'")), reg))
  /\ (ext ∈ map fst reg ->
      exists loader_class loader_args,
        registry_get reg ext = Some (loader_class, loader_args)
        /\ (ext, (loader_class, loader_args)) ∈ reg
        /\ load_single_document load file_path reg
           = (load loader_class loader_args file_path, reg)).
Proof.
  intros ext. unfold load_single_document. fold ext. split.
  - intros Hnot. by rewrite (registry_get_not_key _ _ Hnot).
  - intros Hkey. destruct (registry_get_key _ _ Hkey) as ([c a] & Hget & Hin).
    exists c, a. by rewrite Hget.
Qed.

Lemma collect_succeeds (docs : string -> list Document) (paths : list string) :
  forall results,
  (forall p, p ∈ paths -> fst (load_single_document load p LOADER_MAPPING) = Return (docs p)) ->
  collect load results paths = Return (results ++ flat_map docs paths).
Proof.
  induction paths as [|p paths IH]; intros results Hall; simpl.
  - by rewrite app_nil_r.
  - rewrite (Hall p) by (apply elem_of_cons; by left).
    rewrite IH by (intros q Hq; apply Hall, elem_of_cons; by right).
    by rewrite app_assoc.
Qed.

Lemma collect_fails (paths : list string) :
  forall results p e,
  p ∈ paths ->
  fst (load_single_document load p LOADER_MAPPING) = Raise e ->
  exists before p' after e',
    paths = before ++ p' :: after
    /\ (forall q, q ∈ before ->
          exists d, fst (load_single_document load q LOADER_MAPPING) = Return d)
    /\ fst (load_single_document load p' LOADER_MAPPING) = Raise e'
    /\ collect load results paths = Raise e'.
Proof.
  induction paths as [|q paths IH]; intros results p e Hin Hp.
  - by apply elem_of_nil in Hin.
  - simpl.
    destruct (fst (load_single_document load q LOADER_MAPPING)) as [d|e'] eqn:Hq.
    + assert (p ∈ paths) as Hin'.
      { apply elem_of_cons in Hin as [->|]; [congruence|done]. }
      destruct (IH (results ++ d) p e Hin' Hp) as (before & p' & after & e' & -> & Hok & Hbad & Hc).
      exists (q :: before), p', after, e'. repeat split; [|done|done].
      intros r [->|Hr]%elem_of_cons; eauto.
    + exists [], q, paths, e'. repeat split; [|done].
      intros r Hr. by apply elem_of_nil in Hr.
Qed.

(** C1, as the code has it. [load_documents] does not fence off a failing
    file. When the loader of some file that passed the filter raises, the
    documents gathered so far are dropped and [load_documents] raises the
    exception of the first failing file in the order of arrival; it returns
    the documents of all files, in the order of arrival, only when every
    loader succeeds. *)
Theorem load_documents_raises_first_failure (source_dir : string)
    (ignored_files : list string) :
  let files := filtered_files root expand source_dir ignored_files in
  arrival files ≡ₚ files ->
  (forall docs : string -> list Document,
     (forall p, p ∈ files ->
        fst (load_single_document load p LOADER_MAPPING) = Return (docs p)) ->
     load_documents load arrival root expand source_dir ignored_files
     = Return (flat_map docs (arrival files)))
  /\ (forall p e,
        p ∈ files ->
        fst (load_single_document load p LOADER_MAPPING) = Raise e ->
        exists before p' after e',
          arrival files = before ++ p' :: after
          /\ (forall q, q ∈ before ->
                exists d, fst (load_single_document load q LOADER_MAPPING) = Return d)
          /\ fst (load_single_document load p' LOADER_MAPPING) = Raise e'
          /\ load_documents load arrival root expand source_dir ignored_files = Raise e').
Proof.
  intros files Hperm. unfold load_documents. fold files. split.
  - intros docs Hall.
    rewrite (collect_succeeds docs); [done|].
    intros p Hp. apply Hall. by rewrite <- Hperm.
  - intros p e Hp Hraise.
    apply (collect_fails _ [] p e); [by rewrite Hperm|done].
Qed.

End Scan.

(** C1, the statement as written fails. [b.txt] loads, [a.txt] does not; the
    result of [b.txt] arrives first. [load_documents] raises the error of
    [a.txt] and the document of [b.txt] is not returned. *)
Lemma load_documents_isolation_counterexample :
  fst (Ingest.load_single_document Sample.load_but_a "source_documents/b.txt"
         Ingest.LOADER_MAPPING)
  = Return [Sample.doc "source_documents/b.txt"]
  /\ Ingest.filtered_files [Fs.File "a.txt"; Fs.File "b.txt"] Sample.no_expand "source_documents" []
     = ["source_documents/a.txt"; "source_documents/b.txt"]
  /\ Ingest.load_documents Sample.load_but_a Sample.last_first
       [Fs.File "a.txt"; Fs.File "b.txt"] Sample.no_expand "source_documents" []
     = Raise (Exception "a.txt cannot be decoded")
  /\ Ingest.load_documents Sample.load_but_a Sample.last_first
       [Fs.File "a.txt"; Fs.File "b.txt"] Sample.no_expand "source_documents" []
     <> Return [Sample.doc "source_documents/b.txt"].
Proof.
  split; [reflexivity|]. split; [reflexivity|]. split; [reflexivity|].
  discriminate.
Qed.

Lemma load_single_document_dispatch_witness :
  (".xyz" ∉ map fst Ingest.LOADER_MAPPING)
  /\ (".txt" ∈ map fst Ingest.LOADER_MAPPING)
  /\ Ingest.load_single_document Sample.load_any "drawings/plan.XYZ" Ingest.LOADER_MAPPING
     = (Raise (ValueError "Unsupported file extension '.xyz'"), Ingest.LOADER_MAPPING)
  /\ exists loader_class loader_args,
       Ingest.registry_get Ingest.LOADER_MAPPING ".txt" = Some (loader_class, loader_args)
       /\ (".txt", (loader_class, loader_args)) ∈ Ingest.LOADER_MAPPING
       /\ Ingest.load_single_document Sample.load_any "notes/Site.Diary.TXT" Ingest.LOADER_MAPPING
          = (Sample.load_any loader_class loader_args "notes/Site.Diary.TXT",
             Ingest.LOADER_MAPPING).
Proof.
  assert (H1 : ".xyz" ∉ map fst Ingest.LOADER_MAPPING) by (apply (bool_decide_unpack _); exact I).
  assert (H2 : ".txt" ∈ map fst Ingest.LOADER_MAPPING) by (apply (bool_decide_unpack _); exact I).
  split; [exact H1|]. split; [exact H2|]. split.
  - exact (proj1 (load_single_document_dispatch Sample.load_any
                    Ingest.LOADER_MAPPING "drawings/plan.XYZ") H1).
  - exact (proj2 (load_single_document_dispatch Sample.load_any
                    Ingest.LOADER_MAPPING "notes/Site.Diary.TXT") H2).
Defined.

Lemma load_documents_raises_first_failure_witness :
  Sample.last_first
    (Ingest.filtered_files [Fs.File "a.txt"; Fs.File "b.txt"]
        Sample.no_expand "source_documents" [])
  ≡ₚ Ingest.filtered_files [Fs.File "a.txt"; Fs.File "b.txt"] Sample.no_expand "source_documents" []
  /\ Ingest.load_documents Sample.load_any Sample.last_first
       [Fs.File "a.txt"; Fs.File "b.txt"] Sample.no_expand "source_documents" []
     = Return [Sample.doc "source_documents/b.txt"; Sample.doc "source_documents/a.txt"]
  /\ exists before p' after e',
       Sample.last_first
         (Ingest.filtered_files [Fs.File "a.txt"; Fs.File "b.txt"]
             Sample.no_expand "source_documents" [])
       = before ++ p' :: after
       /\ (forall q, q ∈ before ->
             exists d, fst (Ingest.load_single_document Sample.load_but_a q
                              Ingest.LOADER_MAPPING) = Return d)
       /\ fst (Ingest.load_single_document Sample.load_but_a p' Ingest.LOADER_MAPPING)
          = Raise e'
       /\ Ingest.load_documents Sample.load_but_a Sample.last_first
            [Fs.File "a.txt"; Fs.File "b.txt"] Sample.no_expand "source_documents" []
          = Raise e'.
Proof.
  assert (Hperm : Sample.last_first
    (Ingest.filtered_files [Fs.File "a.txt"; Fs.File "b.txt"]
        Sample.no_expand "source_documents" [])
    ≡ₚ Ingest.filtered_files [Fs.File "a.txt"; Fs.File "b.txt"]
        Sample.no_expand "source_documents" []).
  { change (["source_documents/b.txt"; "source_documents/a.txt"]
            ≡ₚ ["source_documents/a.txt"; "source_documents/b.txt"]).
    apply perm_swap. }
  split; [exact Hperm|]. split.
  - apply (proj1 (load_documents_raises_first_failure Sample.load_any Sample.last_first
                    [Fs.File "a.txt"; Fs.File "b.txt"] Sample.no_expand
                    "source_documents" [] Hperm)
             (fun p => [Sample.doc p])).
    intros p Hp.
    change (p ∈ ["source_documents/a.txt"; "source_documents/b.txt"]) in Hp.
    apply elem_of_cons in Hp as [->|Hp]; [reflexivity|].
    apply elem_of_cons in Hp as [->|Hp]; [reflexivity|].
    by apply elem_of_nil in Hp.
  - apply (proj2 (load_documents_raises_first_failure Sample.load_but_a Sample.last_first
                    [Fs.File "a.txt"; Fs.File "b.txt"] Sample.no_expand
                    "source_documents" [] Hperm)
             "source_documents/a.txt" (Exception "a.txt cannot be decoded")).
    + apply (bool_decide_unpack _). exact I.
    + reflexivity.
Defined.

(** C2. A file whose extension mixes the cases is not found by the scan,
    although [load_single_document] would load it, and although the same name
    is found with the extension all in lower case or all in upper case. *)
Theorem mixed_case_extension_is_missed :
  Ingest.all_files [Fs.File "notes.txt"]
      Sample.no_expand "source_documents" = ["source_documents/notes.txt"]
  /\ Ingest.all_files [Fs.File "notes.TXT"]
      Sample.no_expand "source_documents" = ["source_documents/notes.TXT"]
  /\ Ingest.all_files [Fs.File "notes.Txt"] Sample.no_expand "source_documents" = []
  /\ Ingest.load_documents Sample.load_any Sample.in_order
       [Fs.File "notes.Txt"] Sample.no_expand "source_documents" [] = Return []
  /\ Ingest.load_single_document Sample.load_any "source_documents/notes.Txt"
       Ingest.LOADER_MAPPING
     = (Return [Sample.doc "source_documents/notes.Txt"], Ingest.LOADER_MAPPING).
Proof. repeat split. Qed.

(** ** Ingestion runs *)
Section Ingestion.
Import Fs Ingest.

Variable load : loader_class -> list (string * string) -> string -> outcome (list Document).
Variable arrival : list string -> list string.
Variable split_documents : Z -> Z -> list Document -> list Document.
Variable root : list entry.
Variable expand : string -> list (string * list entry).
Variable open_store : config -> outcome unit.
Variable embed : list Document -> outcome unit.
Variable write : list Document -> outcome unit.
Variable cfg : config.

Lemma os_path_join_inj (a b1 b2 : string) :
  startswith b1 "/" = false -> startswith b2 "/" = false ->
  os_path_join a b1 = os_path_join a b2 -> b1 = b2.
Proof.
  unfold os_path_join. intros -> ->.
  destruct (String.eqb a "" || endswith_char a "/"); intros H.
  - by apply (inj (String.app a)) in H.
  - apply (inj (String.app a)) in H. by simplify_eq/=.
Qed.

Lemma child_path_inj (source_dir b1 b2 : string) :
  startswith b1 "/" = false -> startswith b2 "/" = false ->
  child_path source_dir b1 = child_path source_dir b2 -> b1 = b2.
Proof. apply os_path_join_inj. Qed.

Lemma glob_recursive_flat (listing : list entry) (source_dir suffix : string) :
  has_magic source_dir = false ->
  rlistdir listing = [] ->
  glob_recursive expand source_dir listing suffix
  = map (child_path source_dir) (glob1 listing suffix).
Proof.
  intros Hplain Hflat. unfold glob_recursive, visited. rewrite Hplain, Hflat.
  cbn [map flat_map fst snd]. by rewrite app_nil_r.
Qed.

(** In a directory without subdirectories the scan reports the matching
    names of the listing, each under [child_path]. *)
Lemma all_files_flat (listing : list entry) (source_dir : string) :
  has_magic source_dir = false ->
  rlistdir listing = [] ->
  all_files listing expand source_dir
  = map (child_path source_dir)
      (flat_map (fun kv => glob1 listing (lower (fst kv)) ++ glob1 listing (upper (fst kv)))
                LOADER_MAPPING).
Proof.
  intros Hplain Hflat. unfold all_files.
  induction LOADER_MAPPING as [|kv reg IH]; [done|].
  cbn [flat_map]. rewrite !map_app, IH, !glob_recursive_flat by done. done.
Qed.

Lemma three_in_some_order {A} (a b c : A) (l : list A) :
  l ≡ₚ [a; b; c] ->
  l = [a; b; c] \/ l = [a; c; b] \/ l = [b; a; c]
  \/ l = [b; c; a] \/ l = [c; a; b] \/ l = [c; b; a].
Proof.
  intros Hp. symmetry in Hp.
  destruct (Permutation_vs_cons_inv (symmetry Hp)) as (l1 & l2 & ->).
  apply Permutation_cons_app_inv in Hp.
  apply Permutation_length_2_inv in Hp.
  destruct l1 as [|x [|y [|z l1]]]; destruct Hp as [Hp|Hp];
    simplify_eq/=; auto 10.
Qed.

Lemma collect_one (file_path : string) :
  collect load [] [file_path] = fst (load_single_document load file_path LOADER_MAPPING).
Proof.
  simpl. by destruct (fst (load_single_document load file_path LOADER_MAPPING)).
Qed.

Lemma ignored_never_filtered (listing : list entry) (source_dir : string)
    (ignored_files : list string) (p : string) :
  p ∈ ignored_files -> p ∉ filtered_files listing expand source_dir ignored_files.
Proof.
  intros Hin Hfil. unfold filtered_files in Hfil.
  apply list_elem_of_filter in Hfil as [Hnot _]. done.
Qed.

(** The run of [main] from the scan on, once the store is open and the
    ignore list of the mode is at hand. *)
Lemma main_after_scan (w : world) (ignored : list string) :
  open_store cfg = Return tt ->
  match store w with
  | [] => Return []
  | _ :: _ => sources (store w)
  end = Return ignored ->
  let started :=
    log w ++ [Print (match store w with
                     | [] => "Creating new vectorstore"
                     | _ :: _ => "Appending to existing vectorstore at "
                                 +:+ fmt (persist_directory cfg)
                     end);
              Print ("Loading documents from " +:+ source_directory cfg)] in
  main load arrival split_documents root expand open_store embed write cfg w
  = match load_documents load arrival root expand (source_directory cfg) ignored with
    | Raise e => (Raise e, {| store := store w; log := started |})
    | Return [] =>
        (Raise (SystemExit 0),
         {| store := store w; log := started ++ [Print "No new documents to load"] |})
    | Return documents =>
        let texts := split_documents (chunk_size cfg) (chunk_overlap cfg) documents in
        let embedding :=
          started
          ++ [Print ("Loaded " +:+ str_of_int (len documents)
                     +:+ " new documents from " +:+ source_directory cfg);
              SplitDocuments documents;
              Print ("Split into " +:+ str_of_int (len texts)
                     +:+ " chunks of text (max. " +:+ str_of_int (chunk_size cfg)
                     +:+ " tokens each)");
              Print "Creating embeddings. This may take a few minutes...";
              match store w with
              | [] => FromDocuments texts
              | _ :: _ => AddDocuments texts
              end] in
        match embed texts with
        | Raise e => (Raise e, {| store := store w; log := embedding |})
        | Return _ =>
            match write texts with
            | Raise e => (Raise e, {| store := store w; log := embedding |})
            | Return _ =>
                (Return tt,
                 {| store := store w ++ texts;
                    log := embedding
                           ++ [Persist;
                               Print "Ingestion complete! You can now run PrivateGPT.py to query your documents."] |})
            end
        end
    end.
Proof.
  intros Hopen Hign started. subst started.
  unfold main. unfold bindM at 1, lift at 1. rewrite Hopen.
  unfold bindM at 1, does_vectorstore_exist.
  destruct (store w) as [|r records] eqn:Hstore.
  - simplify_eq. cbn.
    unfold bindM, print, emit, process_documents, bindM, print, emit, lift, exit, raise,
      from_documents, bindM, emit, lift.
    cbn. rewrite ?Hstore.
    destruct (load_documents _ _ _ _ _ _) as [[|d docs]|e]; cbn; rewrite ?Hstore.
    + by rewrite <- !app_assoc.
    + destruct (embed _) as [[]|e]; cbn; rewrite ?Hstore; [|by rewrite <- !app_assoc].
      destruct (write _) as [[]|e]; cbn; rewrite ?Hstore; by rewrite <- !app_assoc.
    + by rewrite <- !app_assoc.
  - cbn. unfold bindM, print, emit, get_collection, lift. cbn.
    rewrite ?Hstore, Hign.
    unfold process_documents, bindM, print, emit, lift, exit, raise,
      add_documents, bindM, emit, lift.
    cbn. rewrite ?Hstore.
    destruct (load_documents _ _ _ _ _ _) as [[|d docs]|e]; cbn; rewrite ?Hstore.
    + by rewrite <- !app_assoc.
    + destruct (embed _) as [[]|e]; cbn; rewrite ?Hstore; [|by rewrite <- !app_assoc].
      destruct (write _) as [[]|e]; cbn; rewrite ?Hstore; by rewrite <- !app_assoc.
    + by rewrite <- !app_assoc.
Qed.

(** C4. In append mode, once the store is open, the ignore list is the list
    of the ["source"] entries of the stored records. With [a.txt] and [b.txt]
    as the stored sources and a source directory that holds [a.txt], [b.txt]
    and [c.txt] and nothing else, only [c.txt] passes the filter, and the
    whole run is the run on the documents of [c.txt] alone: they are the ones
    counted, split, embedded and written after the stored records, and the run
    stops with the error of their loader or with nothing new when it gives
    none. Whatever the directory holds, no path of the ignore list passes the
    filter. Paths are those under which the scan reports the files of the
    source directory, whose name holds no pattern character. *)
Theorem append_mode_loads_only_new_file (w : world) (ignored : list string) :
  let source_dir := source_directory cfg in
  let c_txt := child_path source_dir "c.txt" in
  has_magic source_dir = false ->
  root ≡ₚ [File "a.txt"; File "b.txt"; File "c.txt"] ->
  open_store cfg = Return tt ->
  store w <> [] ->
  sources (store w) = Return ignored ->
  (forall p, p ∈ ignored <->
     p = child_path source_dir "a.txt" \/ p = child_path source_dir "b.txt") ->
  arrival [c_txt] ≡ₚ [c_txt] ->
  filtered_files root expand source_dir ignored = [c_txt]
  /\ load_documents load arrival root expand source_dir ignored
     = fst (load_single_document load c_txt LOADER_MAPPING)
  /\ main load arrival split_documents root expand open_store embed write cfg w
     = (let started :=
          log w ++ [Print ("Appending to existing vectorstore at "
                           +:+ fmt (persist_directory cfg));
                    Print ("Loading documents from " +:+ source_dir)] in
        match fst (load_single_document load c_txt LOADER_MAPPING) with
        | Raise e => (Raise e, {| store := store w; log := started |})
        | Return [] =>
            (Raise (SystemExit 0),
             {| store := store w; log := started ++ [Print "No new documents to load"] |})
        | Return documents =>
            let texts := split_documents (chunk_size cfg) (chunk_overlap cfg) documents in
            let embedding :=
              started
              ++ [Print ("Loaded " +:+ str_of_int (len documents)
                         +:+ " new documents from " +:+ source_dir);
                  SplitDocuments documents;
                  Print ("Split into " +:+ str_of_int (len texts)
                         +:+ " chunks of text (max. " +:+ str_of_int (chunk_size cfg)
                         +:+ " tokens each)");
                  Print "Creating embeddings. This may take a few minutes...";
                  AddDocuments texts] in
            match embed texts with
            | Raise e => (Raise e, {| store := store w; log := embedding |})
            | Return _ =>
                match write texts with
                | Raise e => (Raise e, {| store := store w; log := embedding |})
                | Return _ =>
                    (Return tt,
                     {| store := store w ++ texts;
                        log := embedding
                               ++ [Persist;
                                   Print "Ingestion complete! You can now run PrivateGPT.py to query your documents."] |})
                end
            end
        end)
  /\ (forall listing dir p, p ∈ ignored -> p ∉ filtered_files listing expand dir ignored).
Proof.
  intros source_dir c_txt Hplain Hroot Hopen Hstore Hsrc Hign Harr.
  assert (Ha : child_path source_dir "a.txt" ∈ ignored) by (apply Hign; by left).
  assert (Hb : child_path source_dir "b.txt" ∈ ignored) by (apply Hign; by right).
  assert (Hc : c_txt ∉ ignored).
  { intros [H|H]%Hign; by apply child_path_inj in H. }
  assert (Hfil : filtered_files root expand source_dir ignored = [c_txt]).
  { unfold filtered_files.
    destruct (three_in_some_order _ _ _ _ Hroot) as [->|[->|[->|[->|[->| ->]]]]];
      rewrite all_files_flat by (done || reflexivity);
      match goal with
      | |- context [flat_map ?f ?l] =>
          let names := eval vm_compute in (flat_map f l) in
          change (flat_map f l) with names
      end;
      cbn [map];
      repeat first
        [ rewrite (filter_cons_False _ (child_path source_dir "a.txt")) by (intros H; by apply H)
        | rewrite (filter_cons_False _ (child_path source_dir "b.txt")) by (intros H; by apply H)
        | rewrite (filter_cons_True _ (child_path source_dir "c.txt")) by exact Hc ];
      done. }
  assert (Hload : load_documents load arrival root expand source_dir ignored
                  = fst (load_single_document load c_txt LOADER_MAPPING)).
  { unfold load_documents. rewrite Hfil.
    apply Permutation_singleton_r in Harr. rewrite Harr. apply collect_one. }
  split; [exact Hfil|]. split; [exact Hload|]. split.
  - assert (match store w with [] => Return [] | _ :: _ => sources (store w) end
            = Return ignored) as Hmode by (by destruct (store w)).
    rewrite (main_after_scan w ignored Hopen Hmode). fold source_dir.
    rewrite Hload. by destruct (store w).
  - intros listing dir p. apply ignored_never_filtered.
Qed.

(** C5. When the scan gives no document, [main] prints that there is
    nothing new and leaves through [exit(0)]: the exit status is 0, the
    records of the store are those found at the start, and the trace holds
    three printed lines and no call of the splitter or of the store. The
    ignore list is empty in create mode and the stored sources in append
    mode; the scan comes after the store has been opened. *)
Theorem nothing_new_exits_zero (w : world) (ignored : list string) :
  match store w with
  | [] => Return []
  | _ :: _ => sources (store w)
  end = Return ignored ->
  open_store cfg = Return tt ->
  load_documents load arrival root expand (source_directory cfg) ignored = Return [] ->
  main load arrival split_documents root expand open_store embed write cfg w
  = (Raise (SystemExit 0),
     {| store := store w;
        log := log w
               ++ [Print (match store w with
                          | [] => "Creating new vectorstore"
                          | _ :: _ => "Appending to existing vectorstore at "
                                      +:+ fmt (persist_directory cfg)
                          end);
                   Print ("Loading documents from " +:+ source_directory cfg);
                   Print "No new documents to load"] |})
  /\ exit_status (fst (main load arrival split_documents root expand open_store embed write cfg w))
     = 0%Z.
Proof.
  intros Hign Hopen Hscan.
  rewrite (main_after_scan w ignored Hopen Hign), Hscan. cbv zeta.
  by rewrite <- app_assoc.
Qed.

End Ingestion.

Lemma append_mode_loads_only_new_file_witness :
  Fs.has_magic "source_documents" = false
  /\ Ingest.filtered_files [Fs.File "c.txt"; Fs.File "a.txt"; Fs.File "b.txt"]
       Sample.no_expand "source_documents"
       ["source_documents/a.txt"; "source_documents/a.txt"; "source_documents/b.txt"]
     = ["source_documents/c.txt"]
  /\ Ingest.main Sample.load_any Sample.in_order Sample.no_split
       [Fs.File "c.txt"; Fs.File "a.txt"; Fs.File "b.txt"] Sample.no_expand
       Sample.opens Sample.opens Sample.opens Sample.ingest_cfg
       {| Ingest.store := [Sample.doc "source_documents/a.txt";
                           Sample.doc "source_documents/a.txt";
                           Sample.doc "source_documents/b.txt"];
          Ingest.log := [] |}
     = (Return tt,
        {| Ingest.store := [Sample.doc "source_documents/a.txt";
                            Sample.doc "source_documents/a.txt";
                            Sample.doc "source_documents/b.txt";
                            Sample.doc "source_documents/c.txt"];
           Ingest.log :=
             [Ingest.Print "Appending to existing vectorstore at db";
              Ingest.Print "Loading documents from source_documents";
              Ingest.Print "Loaded 1 new documents from source_documents";
              Ingest.SplitDocuments [Sample.doc "source_documents/c.txt"];
              Ingest.Print "Split into 1 chunks of text (max. 1000 tokens each)";
              Ingest.Print "Creating embeddings. This may take a few minutes...";
              Ingest.AddDocuments [Sample.doc "source_documents/c.txt"];
              Ingest.Persist;
              Ingest.Print "Ingestion complete! You can now run PrivateGPT.py to query your documents."] |}).
Proof.
  pose (w := {| Ingest.store := [Sample.doc "source_documents/a.txt";
                                 Sample.doc "source_documents/a.txt";
                                 Sample.doc "source_documents/b.txt"];
                Ingest.log := [] |}).
  assert (Hmagic : Fs.has_magic "source_documents" = false) by reflexivity.
  destruct (append_mode_loads_only_new_file Sample.load_any Sample.in_order
              Sample.no_split [Fs.File "c.txt"; Fs.File "a.txt"; Fs.File "b.txt"]
              Sample.no_expand Sample.opens Sample.opens Sample.opens
              Sample.ingest_cfg w
              ["source_documents/a.txt"; "source_documents/a.txt";
               "source_documents/b.txt"])
    as (Hfil & _ & Hmain & _).
  - exact Hmagic.
  - exact (perm_trans (perm_swap (Fs.File "a.txt") (Fs.File "c.txt") [Fs.File "b.txt"])
             (perm_skip (Fs.File "a.txt")
                (perm_swap (Fs.File "b.txt") (Fs.File "c.txt") []))).
  - reflexivity.
  - discriminate.
  - reflexivity.
  - intros p. change (Fs.child_path (Ingest.source_directory Sample.ingest_cfg) "a.txt")
      with "source_documents/a.txt".
    change (Fs.child_path (Ingest.source_directory Sample.ingest_cfg) "b.txt")
      with "source_documents/b.txt".
    rewrite !elem_of_cons, elem_of_nil. tauto.
  - reflexivity.
  - split; [exact Hmagic|]. split; [exact Hfil|]. exact Hmain.
Defined.

Lemma nothing_new_exits_zero_witness :
  Ingest.load_documents Sample.load_any Sample.in_order []
      Sample.no_expand "source_documents" [] = Return []
  /\ Ingest.main Sample.load_any Sample.in_order Sample.no_split [] Sample.no_expand Sample.opens
       Sample.opens Sample.opens Sample.ingest_cfg {| Ingest.store := []; Ingest.log := [] |}
     = (Raise (SystemExit 0),
        {| Ingest.store := [];
           Ingest.log := [Ingest.Print "Creating new vectorstore";
                          Ingest.Print "Loading documents from source_documents";
                          Ingest.Print "No new documents to load"] |})
  /\ exit_status (fst (Ingest.main Sample.load_any Sample.in_order Sample.no_split []
      Sample.no_expand
                         Sample.opens Sample.opens Sample.opens Sample.ingest_cfg
                         {| Ingest.store := []; Ingest.log := [] |}))
     = 0%Z.
Proof.
  assert (Hscan : Ingest.load_documents Sample.load_any Sample.in_order [] Sample.no_expand
                    "source_documents" [] = Return []) by reflexivity.
  split; [exact Hscan|].
  exact (nothing_new_exits_zero Sample.load_any Sample.in_order Sample.no_split []
           Sample.no_expand Sample.opens Sample.opens Sample.opens Sample.ingest_cfg
           {| Ingest.store := []; Ingest.log := [] |} [] eq_refl eq_refl Hscan).
Defined.

(** ** Reading the configuration *)
Section Startup.

Lemma all_chars_weaken (p q : ascii -> bool) (s : string) :
  (forall c, p c = true -> q c = true) ->
  all_chars p s = true -> all_chars q s = true.
Proof.
  intros Hpq. induction s as [|c s IH]; simpl; [done|].
  intros [Hc Hs]%andb_prop. by rewrite (Hpq c Hc), IH.
Qed.

Lemma all_chars_contains (p : ascii -> bool) (c : ascii) (s : string) :
  all_chars p s = true -> contains c s = true -> p c = true.
Proof.
  unfold contains. induction s as [|c' s IH]; simpl; [done|].
  intros [Hc Hs]%andb_prop.
  destruct (Ascii.eqb_spec c' c) as [->|_]; simpl; [done|]. auto.
Qed.

Lemma int_isspace_numeral (base : Z) (c : ascii) :
  int_isspace c = true -> numeral_char base c = true.
Proof. unfold numeral_char. by intros ->. Qed.

Lemma digit_numeral (base : Z) (c : ascii) (v : Z) :
  digit_in base c = Some v -> numeral_char base c = true.
Proof. unfold numeral_char. intros ->. by rewrite !orb_true_r. Qed.

Lemma underscore_numeral (base : Z) : numeral_char base "_" = true.
Proof. unfold numeral_char. by rewrite !orb_true_r. Qed.

Lemma lstrip_numeral (base : Z) (s : string) :
  all_chars (numeral_char base) (lstrip_with int_isspace s) = true ->
  all_chars (numeral_char base) s = true.
Proof.
  induction s as [|c s IH]; simpl; [done|].
  destruct (int_isspace c) eqn:Hc; [|done].
  intros H. by rewrite (int_isspace_numeral _ _ Hc), IH.
Qed.

Lemma skip_sign_numeral (base : Z) (s : string) :
  all_chars (numeral_char base) (snd (skip_sign s)) = true ->
  all_chars (numeral_char base) s = true.
Proof.
  destruct s as [|c s]; simpl; [done|].
  destruct (Ascii.eqb_spec c "+") as [->|_]; simpl.
  { intros ->. done. }
  destruct (Ascii.eqb_spec c "-") as [->|_]; simpl; [|done].
  intros ->. done.
Qed.

Lemma skip_prefix_numeral (base : Z) (s : string) :
  all_chars (numeral_char base) (skip_prefix base s) = true ->
  all_chars (numeral_char base) s = true.
Proof.
  destruct s as [|z [|p rest]]; [done..|]. unfold skip_prefix.
  destruct (Ascii.eqb_spec z "0") as [->|_]; cbn [andb]; [|done].
  destruct (_ || _) eqn:Hp; [|done].
  assert (numeral_char base "0" = true) as H0.
  { unfold numeral_char. by rewrite !orb_true_r. }
  assert (numeral_char base p = true) as Hnp.
  { unfold numeral_char.
    repeat (apply orb_prop in Hp as [Hp|Hp]);
      apply andb_prop in Hp as [_ ->]; by rewrite !orb_true_r. }
  cbn [all_chars]. rewrite H0, Hnp. cbn [andb].
  destruct rest as [|u rest']; [done|].
  destruct (Ascii.eqb_spec u "_") as [->|_]; [|done].
  cbn [all_chars]. by rewrite underscore_numeral.
Qed.

Lemma more_digits_numeral (base : Z) (n : nat) :
  forall s acc v rest,
  String.length s <= n ->
  more_digits base acc s = Some (v, rest) ->
  all_chars (numeral_char base) rest = true ->
  all_chars (numeral_char base) s = true.
Proof.
  induction n as [|n IH]; intros s acc v rest Hlen Hm Hrest.
  - destruct s; simpl in Hlen; [done|lia].
  - destruct s as [|c s]; [done|]. simpl in Hlen, Hm.
    destruct (Ascii.eqb_spec c "_") as [->|_].
    + destruct s as [|d s]; [done|].
      destruct (digit_in base d) as [dv|] eqn:Hd; [|done].
      cbn [all_chars]. rewrite underscore_numeral, (digit_numeral _ _ _ Hd). simpl.
      simpl in Hlen. apply (IH s (acc * base + dv)%Z v rest); [lia|done..].
    + destruct (digit_in base c) as [dv|] eqn:Hd.
      * cbn [all_chars]. rewrite (digit_numeral _ _ _ Hd). simpl.
        apply (IH s (acc * base + dv)%Z v rest); [lia|done..].
      * by simplify_eq.
Qed.

Lemma digits_numeral (base : Z) (s : string) (v : Z) (rest : string) :
  digits base s = Some (v, rest) ->
  all_chars (numeral_char base) rest = true ->
  all_chars (numeral_char base) s = true.
Proof.
  destruct s as [|c s]; simpl; [done|].
  destruct (digit_in base c) as [dv|] eqn:Hd; [|done].
  intros Hm Hrest. rewrite (digit_numeral _ _ _ Hd). simpl.
  by apply (more_digits_numeral base (String.length s) s dv v rest).
Qed.

(** A text [int] accepts for a base is made of numeral characters. *)
Lemma int_base_numeral (base : Z) (s : string) (v : Z) :
  int_base (Some s) base = Return v ->
  all_chars (numeral_char base) s = true.
Proof.
  unfold int_base.
  destruct (skip_sign (lstrip_with int_isspace s)) as [sign body] eqn:Hsign.
  destruct (digits base (skip_prefix base body)) as [[n rest]|] eqn:Hd; [|done].
  destruct (all_chars int_isspace rest) eqn:Hrest; [|done].
  intros _. apply lstrip_numeral, skip_sign_numeral. rewrite Hsign. simpl.
  apply skip_prefix_numeral. apply (digits_numeral _ _ _ _ Hd).
  by apply (all_chars_weaken int_isspace), Hrest; apply int_isspace_numeral.
Qed.

Lemma int_base_total (base : Z) (s : string) :
  (exists v, int_base (Some s) base = Return v)
  \/ int_base (Some s) base = Raise (InvalidLiteral base s).
Proof.
  unfold int_base.
  destruct (skip_sign _) as [sign body].
  destruct (digits _ _) as [[n rest]|]; [|by right].
  destruct (all_chars _ rest); [left; eauto|by right].
Qed.

(** A character that is no numeral character of the base makes [int]
    reject the text. *)
Lemma int_base_rejects (base : Z) (c : ascii) (s : string) :
  numeral_char base c = false ->
  contains c s = true ->
  int_base (Some s) base = Raise (InvalidLiteral base s).
Proof.
  intros Hc Hin. destruct (int_base_total base s) as [[v Hv]|H]; [|done].
  apply int_base_numeral in Hv.
  rewrite (all_chars_contains _ _ _ Hv Hin) in Hc. done.
Qed.

Lemma load_dotenv_again (dotenv environ : gmap string string) :
  (environ ∪ dotenv) ∪ dotenv = environ ∪ dotenv.
Proof.
  apply map_eq. intros k. rewrite !lookup_union.
  by destruct (environ !! k), (dotenv !! k).
Qed.

Lemma import_llms_provided (llms : list string) :
  "GPT4All" ∈ llms -> "Llamacpp" ∈ llms -> import_llms llms = Return tt.
Proof.
  intros H1 H2. unfold import_llms. by rewrite !bool_decide_eq_true_2.
Qed.

(** The import of [privateGPT] once the names of [langchain.llms] are found,
    [constants] is imported and the [.env] file has a binding: the
    configuration is read from the environment [load_dotenv] leaves. *)
Lemma import_privateGPT_reads (llms : list string) (dotenv environ : gmap string string)
    (d : string) :
  "GPT4All" ∈ llms -> "Llamacpp" ∈ llms ->
  dotenv <> ∅ ->
  (environ ∪ dotenv) !! "PERSIST_DIRECTORY" = Some d ->
  import_privateGPT llms dotenv environ
  = ([], read_settings (environ ∪ dotenv)
           {| Constants.persist_directory := d;
              Constants.anonymized_telemetry := false |}).
Proof.
  intros H1 H2 Hfile Hdir.
  unfold import_privateGPT. rewrite (import_llms_provided _ H1 H2).
  unfold Constants.import_constants, load_dotenv. cbn [fst snd].
  rewrite load_dotenv_again, Hdir, bool_decide_eq_false_2 by done.
  done.
Qed.

Lemma import_ingest_reads (dotenv environ : gmap string string) (d : string) :
  dotenv <> ∅ ->
  (environ ∪ dotenv) !! "PERSIST_DIRECTORY" = Some d ->
  Ingest.import_ingest dotenv environ
  = ([],
     Return {| Ingest.chunk_size := 1000;
               Ingest.chunk_overlap := 100;
               Ingest.persist_directory := Some d;
               Ingest.source_directory :=
                 default "source_documents" ((environ ∪ dotenv) !! "SOURCE_DIRECTORY");
               Ingest.embeddings_model_name :=
                 (environ ∪ dotenv) !! "EMBEDDINGS_MODEL_NAME";
               Ingest.CHROMA_SETTINGS :=
                 {| Constants.persist_directory := d;
                    Constants.anonymized_telemetry := false |} |}).
Proof.
  intros Hfile Hdir.
  unfold Ingest.import_ingest, Constants.import_constants, load_dotenv. cbn [fst snd].
  rewrite load_dotenv_again, !Hdir. by rewrite bool_decide_eq_false_2.
Qed.

(** C7, as the code has it. Only the store location is checked, by
    [constants]: without [PERSIST_DIRECTORY] its import raises an exception
    whose message names that variable. That stops [ingest] at its start, and
    it stops [privateGPT] before a line is read or a prompt written, once the
    import of [GPT4All] and [Llamacpp] from [langchain.llms] has gone through.
    The other options are read as they are. With the store location set and a
    binding in the [.env] file, the import of [ingest] succeeds and an absent
    embeddings model name is [None]; so does the import of [privateGPT], after
    the same import from [langchain.llms] and where the two numerals parse,
    with [None] for an absent embeddings model name, model type, model path
    or context size. *)
Theorem missing_store_location_is_fatal
    (qa : chain -> string -> outcome answer)
    (open_retriever : config -> outcome unit) (build_chain : chain -> outcome unit)
    (args : arguments) (llms : list string)
    (dotenv environ : gmap string string) (stdin : list string) :
  ((environ ∪ dotenv) !! "PERSIST_DIRECTORY" = None ->
   snd (Constants.import_constants dotenv environ)
   = Raise (Exception "Please set the PERSIST_DIRECTORY environment variable")
   /\ Ingest.import_ingest dotenv environ
      = ([], Raise (Exception "Please set the PERSIST_DIRECTORY environment variable"))
   /\ ("GPT4All" ∈ llms -> "Llamacpp" ∈ llms ->
       script qa open_retriever build_chain args llms dotenv environ stdin
       = (Raise (Exception "Please set the PERSIST_DIRECTORY environment variable"),
          stdin, [])))
  /\ (forall d,
        dotenv <> ∅ ->
        (environ ∪ dotenv) !! "PERSIST_DIRECTORY" = Some d ->
        Ingest.import_ingest dotenv environ
        = ([],
           Return {| Ingest.chunk_size := 1000;
                     Ingest.chunk_overlap := 100;
                     Ingest.persist_directory := Some d;
                     Ingest.source_directory :=
                       default "source_documents"
                         ((environ ∪ dotenv) !! "SOURCE_DIRECTORY");
                     Ingest.embeddings_model_name :=
                       (environ ∪ dotenv) !! "EMBEDDINGS_MODEL_NAME";
                     Ingest.CHROMA_SETTINGS :=
                       {| Constants.persist_directory := d;
                          Constants.anonymized_telemetry := false |} |})
        /\ forall n_batch chunks,
             "GPT4All" ∈ llms -> "Llamacpp" ∈ llms ->
             int_base ((environ ∪ dotenv) !! "MODEL_N_BATCH") 8 = Return n_batch ->
             int_base ((environ ∪ dotenv) !! "TARGET_SOURCE_CHUNKS") 4 = Return chunks ->
             import_privateGPT llms dotenv environ
             = ([],
                Return {| embeddings_model_name :=
                            (environ ∪ dotenv) !! "EMBEDDINGS_MODEL_NAME";
                          persist_directory := Some d;
                          model_type := (environ ∪ dotenv) !! "MODEL_TYPE";
                          model_path := (environ ∪ dotenv) !! "MODEL_PATH";
                          model_n_ctx := (environ ∪ dotenv) !! "MODEL_N_CTX";
                          model_n_batch := n_batch;
                          target_source_chunks := chunks;
                          CHROMA_SETTINGS :=
                            {| Constants.persist_directory := d;
                               Constants.anonymized_telemetry := false |} |})).
Proof.
  split.
  - intros Hnone. split; [|split].
    + unfold Constants.import_constants, load_dotenv. cbn [fst snd]. by rewrite Hnone.
    + unfold Ingest.import_ingest, Constants.import_constants, load_dotenv.
      cbn [fst snd]. by rewrite Hnone.
    + intros H1 H2. unfold script, import_privateGPT.
      rewrite (import_llms_provided _ H1 H2).
      unfold Constants.import_constants, load_dotenv. cbn [fst snd]. by rewrite Hnone.
  - intros d Hfile Hdir. split; [by apply import_ingest_reads|].
    intros n_batch chunks H1 H2 Hbatch Hchunks.
    rewrite (import_privateGPT_reads _ _ _ d H1 H2 Hfile Hdir).
    unfold read_settings. by rewrite Hbatch, Hchunks, Hdir.
Qed.

(** C10, as the code has it. The assignments that read the configuration
    take the batch size in base 8 and the number of retrieved chunks in
    base 4. With ["10"] for both the batch size is 8 and the number of chunks
    4. A batch size that holds the digit 8 or 9 stops them with the error of
    [int] for base 8; a number of chunks that holds a digit from 4 to 9 stops
    them with the error of [int] for base 4. They run at import time, on the
    environment [load_dotenv] leaves, once the import from [langchain.llms]
    has gone through, the store location is set and the [.env] file has a
    binding. *)
Theorem numerals_read_in_base_8_and_4 (environ : gmap string string)
    (settings : Constants.Settings) :
  (environ !! "MODEL_N_BATCH" = Some "10" ->
   environ !! "TARGET_SOURCE_CHUNKS" = Some "10" ->
   exists cfg,
     read_settings environ settings = Return cfg
     /\ model_n_batch cfg = 8%Z /\ target_source_chunks cfg = 4%Z)
  /\ (forall s,
        environ !! "MODEL_N_BATCH" = Some s ->
        contains "8" s || contains "9" s = true ->
        read_settings environ settings = Raise (InvalidLiteral 8 s))
  /\ (forall s n_batch,
        int_base (environ !! "MODEL_N_BATCH") 8 = Return n_batch ->
        environ !! "TARGET_SOURCE_CHUNKS" = Some s ->
        contains "4" s || contains "5" s || contains "6" s
        || contains "7" s || contains "8" s || contains "9" s = true ->
        read_settings environ settings = Raise (InvalidLiteral 4 s))
  /\ (forall llms dotenv environ0 d,
        "GPT4All" ∈ llms -> "Llamacpp" ∈ llms ->
        dotenv <> ∅ ->
        (environ0 ∪ dotenv) !! "PERSIST_DIRECTORY" = Some d ->
        import_privateGPT llms dotenv environ0
        = ([], read_settings (environ0 ∪ dotenv)
                 {| Constants.persist_directory := d;
                    Constants.anonymized_telemetry := false |})).
Proof.
  unfold read_settings. split; [|split; [|split]].
  - intros -> ->. eexists. split; [reflexivity|]. done.
  - intros s -> Hin.
    assert (int_base (Some s) 8 = Raise (InvalidLiteral 8 s)) as ->; [|done].
    apply orb_prop in Hin as [Hin|Hin];
      (eapply int_base_rejects; [|exact Hin]); reflexivity.
  - intros s n_batch -> -> Hin. cbn [bind].
    assert (int_base (Some s) 4 = Raise (InvalidLiteral 4 s)) as ->; [|done].
    repeat (apply orb_prop in Hin as [Hin|Hin]);
      (eapply int_base_rejects; [|exact Hin]); reflexivity.
  - intros llms dotenv environ0 d. apply import_privateGPT_reads.
Qed.

End Startup.

Import Py Env PrivateGPT.

(** C7, the statement as written fails. Without [EMBEDDINGS_MODEL_NAME] the
    import of [ingest] succeeds and the name is [None]. Without
    [MODEL_N_BATCH] the script [privateGPT] stops with a type error that does
    not name the variable where [langchain.llms] provides [Llamacpp], and with
    the import error for [Llamacpp] where it does not. *)
Lemma missing_option_goes_unreported_counterexample :
  delete "EMBEDDINGS_MODEL_NAME" Sample.dotenv !! "EMBEDDINGS_MODEL_NAME" = None
  /\ Ingest.import_ingest (delete "EMBEDDINGS_MODEL_NAME" Sample.dotenv) ∅
     = ([],
        Return {| Ingest.chunk_size := 1000;
                  Ingest.chunk_overlap := 100;
                  Ingest.persist_directory := Some "db";
                  Ingest.source_directory := "source_documents";
                  Ingest.embeddings_model_name := None;
                  Ingest.CHROMA_SETTINGS :=
                    {| Constants.persist_directory := "db";
                       Constants.anonymized_telemetry := false |} |})
  /\ delete "MODEL_N_BATCH" Sample.dotenv !! "MODEL_N_BATCH" = None
  /\ script Sample.qa Sample.opens Sample.opens Sample.args Sample.aliased_llms
       (delete "MODEL_N_BATCH" Sample.dotenv) ∅ ["exit"]
     = (Raise (TypeError "int() can't convert non-string with explicit base"),
        ["exit"], [])
  /\ script Sample.qa Sample.opens Sample.opens Sample.args Sample.langchain_llms
       (delete "MODEL_N_BATCH" Sample.dotenv) ∅ ["exit"]
     = (Raise (ImportError "Llamacpp" "langchain.llms"), ["exit"], []).
Proof. repeat split. Qed.

Lemma missing_store_location_is_fatal_witness :
  (∅ ∪ delete "PERSIST_DIRECTORY" Sample.dotenv) !! "PERSIST_DIRECTORY" = None
  /\ Ingest.import_ingest (delete "PERSIST_DIRECTORY" Sample.dotenv) ∅
     = ([], Raise (Exception "Please set the PERSIST_DIRECTORY environment variable"))
  /\ script Sample.qa Sample.opens Sample.opens Sample.args Sample.aliased_llms
       (delete "PERSIST_DIRECTORY" Sample.dotenv) ∅ ["exit"]
     = (Raise (Exception "Please set the PERSIST_DIRECTORY environment variable"),
        ["exit"], [])
  /\ delete "MODEL_PATH" Sample.dotenv <> ∅
  /\ (∅ ∪ delete "MODEL_PATH" Sample.dotenv) !! "MODEL_PATH" = None
  /\ import_privateGPT Sample.aliased_llms (delete "MODEL_PATH" Sample.dotenv) ∅
     = ([],
        Return {| embeddings_model_name := Some "BAAI/bge-small-en";
                  persist_directory := Some "db";
                  model_type := Some "GPT4ALL";
                  model_path := None;
                  model_n_ctx := Some "1000";
                  model_n_batch := 8;
                  target_source_chunks := 4;
                  CHROMA_SETTINGS :=
                    {| Constants.persist_directory := "db";
                       Constants.anonymized_telemetry := false |} |}).
Proof.
  assert (H1 : (∅ ∪ delete "PERSIST_DIRECTORY" Sample.dotenv) !! "PERSIST_DIRECTORY"
               = (None : option string)) by reflexivity.
  assert (H2 : delete "MODEL_PATH" Sample.dotenv <> ∅).
  { intros H. apply (f_equal (fun m : gmap string string => m !! "MODEL_TYPE")) in H.
    discriminate H. }
  assert (Hg : "GPT4All" ∈ Sample.aliased_llms) by (apply (bool_decide_unpack _); exact I).
  assert (Hl : "Llamacpp" ∈ Sample.aliased_llms) by (apply (bool_decide_unpack _); exact I).
  pose proof (missing_store_location_is_fatal Sample.qa Sample.opens Sample.opens
                Sample.args Sample.aliased_llms
                (delete "PERSIST_DIRECTORY" Sample.dotenv) ∅ ["exit"]) as Habsent.
  pose proof (missing_store_location_is_fatal Sample.qa Sample.opens Sample.opens
                Sample.args Sample.aliased_llms
                (delete "MODEL_PATH" Sample.dotenv) ∅ ["exit"]) as Hread.
  split; [exact H1|]. split; [exact (proj1 (proj2 (proj1 Habsent H1)))|].
  split; [exact (proj2 (proj2 (proj1 Habsent H1)) Hg Hl)|].
  split; [exact H2|]. split; [reflexivity|].
  exact (proj2 (proj2 Hread "db" H2 eq_refl) 8%Z 4%Z Hg Hl eq_refl eq_refl).
Defined.

(** C10, the statement as written fails. The number of retrieved chunks is
    not read in base 8: ["10"] gives 4, and ["7"], an octal numeral, is
    rejected. Where [langchain.llms] does not provide [Llamacpp] no numeral is
    read at all: a batch size of ["18"] meets the import error, not a parse
    error. *)
Lemma chunk_count_is_not_octal_counterexample :
  Sample.dotenv !! "TARGET_SOURCE_CHUNKS" = Some "10"
  /\ import_privateGPT Sample.aliased_llms Sample.dotenv ∅
     = ([], Return (Sample.cfg_of (Some "GPT4ALL")))
  /\ target_source_chunks (Sample.cfg_of (Some "GPT4ALL")) = 4%Z
  /\ int_base (Some "10") 8 = Return 8%Z
  /\ int_base (Some "7") 8 = Return 7%Z
  /\ import_privateGPT Sample.aliased_llms
       (<["TARGET_SOURCE_CHUNKS" := "7"]> Sample.dotenv) ∅
     = ([], Raise (InvalidLiteral 4 "7"))
  /\ import_privateGPT Sample.langchain_llms
       (<["MODEL_N_BATCH" := "18"]> Sample.dotenv) ∅
     = ([], Raise (ImportError "Llamacpp" "langchain.llms")).
Proof. repeat split. Qed.

Lemma numerals_read_in_base_8_and_4_witness :
  (exists cfg,
     read_settings Sample.dotenv
       {| Constants.persist_directory := "db"; Constants.anonymized_telemetry := false |}
     = Return cfg
     /\ model_n_batch cfg = 8%Z /\ target_source_chunks cfg = 4%Z)
  /\ import_privateGPT Sample.aliased_llms (<["MODEL_N_BATCH" := "18"]> Sample.dotenv) ∅
     = ([], Raise (InvalidLiteral 8 "18"))
  /\ import_privateGPT Sample.aliased_llms (<["TARGET_SOURCE_CHUNKS" := "5"]> Sample.dotenv) ∅
     = ([], Raise (InvalidLiteral 4 "5")).
Proof.
  pose (settings := {| Constants.persist_directory := "db";
                       Constants.anonymized_telemetry := false |}).
  assert (Hne : forall m : gmap string string, m !! "PERSIST_DIRECTORY" = Some "db" -> m <> ∅).
  { intros m Hm ->. discriminate Hm. }
  assert (Hg : "GPT4All" ∈ Sample.aliased_llms) by (apply (bool_decide_unpack _); exact I).
  assert (Hl : "Llamacpp" ∈ Sample.aliased_llms) by (apply (bool_decide_unpack _); exact I).
  assert (Hd18 : (∅ ∪ <["MODEL_N_BATCH" := "18"]> Sample.dotenv) !! "PERSIST_DIRECTORY"
                 = Some "db") by reflexivity.
  assert (Hd5 : (∅ ∪ <["TARGET_SOURCE_CHUNKS" := "5"]> Sample.dotenv) !! "PERSIST_DIRECTORY"
                = Some "db") by reflexivity.
  assert (Hn18 : <["MODEL_N_BATCH" := "18"]> Sample.dotenv <> ∅)
    by (apply Hne; reflexivity).
  assert (Hn5 : <["TARGET_SOURCE_CHUNKS" := "5"]> Sample.dotenv <> ∅)
    by (apply Hne; reflexivity).
  split; [|split].
  - apply (proj1 (numerals_read_in_base_8_and_4 Sample.dotenv settings)); reflexivity.
  - rewrite (proj2 (proj2 (proj2 (numerals_read_in_base_8_and_4 ∅ settings)))
               Sample.aliased_llms (<["MODEL_N_BATCH" := "18"]> Sample.dotenv) ∅ "db"
               Hg Hl Hn18 Hd18).
    apply (f_equal (pair (@nil string))).
    apply (proj1 (proj2 (numerals_read_in_base_8_and_4
                           (∅ ∪ <["MODEL_N_BATCH" := "18"]> Sample.dotenv) settings))
             "18"); reflexivity.
  - rewrite (proj2 (proj2 (proj2 (numerals_read_in_base_8_and_4 ∅ settings)))
               Sample.aliased_llms (<["TARGET_SOURCE_CHUNKS" := "5"]> Sample.dotenv) ∅ "db"
               Hg Hl Hn5 Hd5).
    apply (f_equal (pair (@nil string))).
    apply (proj1 (proj2 (proj2 (numerals_read_in_base_8_and_4
                                  (∅ ∪ <["TARGET_SOURCE_CHUNKS" := "5"]> Sample.dotenv)
                                  settings)))
             "5" 8%Z); reflexivity.
Defined.

(** ** More on the answering loop *)
Section AnswerLoopRuns.
Import Py Env PrivateGPT.

Variable qa : chain -> string -> outcome answer.
Variable args : arguments.
Variable qa_chain : chain.

Lemma lstrip_keeps_a_letter (s : string) :
  all_chars isspace s = false ->
  exists c t, lstrip s = String c t /\ isspace c = false.
Proof.
  induction s as [|c s IH]; simpl; [done|].
  destruct (isspace c) eqn:Hc; simpl; eauto.
Qed.

Lemma rstrip_keeps_a_letter (c : ascii) (t : string) :
  isspace c = false -> rstrip (String c t) <> "".
Proof. intros Hc. simpl. rewrite Hc. by destruct (rstrip t). Qed.

Lemma strip_not_blank (s : string) :
  all_chars isspace s = false -> strip s <> "".
Proof.
  intros H. destruct (lstrip_keeps_a_letter s H) as (c & t & Hl & Hc).
  unfold strip. rewrite Hl. by apply rstrip_keeps_a_letter.
Qed.

(** X1. A line that is not the sentinel and holds a character that is no
    white space is always handed to the chain, as typed and unstripped, right
    after the prompt. When the chain raises, the error ends the loop with the
    later lines unread. When it answers, the question, the answer and the
    sources are printed after the call, and the loop goes on with the next
    line unless a source is missing. *)
Theorem non_blank_query_reaches_chain (query : string) (stdin : list string)
    (log : list event) :
  query <> "exit" ->
  all_chars isspace query = false ->
  query_loop qa args qa_chain (query :: stdin) log
  = match qa qa_chain query with
    | Raise e => (Raise e, stdin, (log ++ [the_prompt]) ++ [Ask query])
    | Return res =>
        match print_sources (if hide_source args then [] else source_documents res)
                ((log ++ [the_prompt])
                 ++ [Ask query;
                     Print (nl +:+ nl +:+ " > Question:");
                     Print query;
                     Print (nl +:+ "> Answer (took " +:+ seconds res +:+ "s.):");
                     Print (result res)]) with
        | (Raise e, log') => (Raise e, stdin, log')
        | (Return _, log') => query_loop qa args qa_chain stdin log'
        end
    end.
Proof.
  intros Hne Hletter. simpl.
  apply String.eqb_neq in Hne. rewrite Hne.
  apply strip_not_blank, String.eqb_neq in Hletter. by rewrite Hletter.
Qed.

(** X2. The loop returns normally only at the sentinel: when [query_loop]
    returns, the input read is a run of lines without ["exit"] followed by the
    line ["exit"], and the lines after it are left unread. *)
Theorem loop_returns_only_at_sentinel (stdin : list string) :
  forall log rest log',
  query_loop qa args qa_chain stdin log = (Return tt, rest, log') ->
  exists before, stdin = before ++ "exit" :: rest /\ "exit" ∉ before.
Proof.
  induction stdin as [|query stdin IH]; intros log rest log' Hrun; [done|].
  simpl in Hrun.
  destruct (String.eqb_spec query "exit") as [->|Hne].
  { simplify_eq. exists []. split; [done|]. apply not_elem_of_nil. }
  assert (forall l, query_loop qa args qa_chain stdin l = (Return tt, rest, log') ->
            exists before, query :: stdin = before ++ "exit" :: rest /\ "exit" ∉ before)
    as Hnext.
  { intros l Hl. destruct (IH _ _ _ Hl) as (before & -> & Hnot).
    exists (query :: before). split; [done|].
    apply not_elem_of_cons. split; [congruence|done]. }
  destruct (String.eqb (strip query) ""); [by eapply Hnext|].
  unfold answer_query in Hrun.
  destruct (qa qa_chain query) as [res|e]; [|done].
  destruct (print_sources _ _) as [[[]|e] l]; [|done].
  by eapply Hnext.
Qed.

Lemma asked_app (l1 l2 : list event) : asked (l1 ++ l2) = asked l1 ++ asked l2.
Proof. apply flat_map_app. Qed.

Lemma print_sources_asks_nothing (docs : list Ingest.Document) :
  forall log, asked (snd (print_sources docs log)) = asked log.
Proof.
  induction docs as [|d docs IH]; intros log; simpl; [done|].
  destruct (Ingest.metadata d !! "source"); [|done].
  by rewrite IH, asked_app, app_nil_r.
Qed.

(** X3. Whatever way the loop ends, the queries handed to the chain are
    the lines read that are neither the sentinel nor blank, each once and in
    the order typed; the lines read and the lines left make up the input. *)
Theorem loop_asks_each_query_once (stdin : list string) (log : list event) :
  exists read,
    stdin = read ++ snd (fst (query_loop qa args qa_chain stdin log))
    /\ asked (snd (query_loop qa args qa_chain stdin log))
       = asked log ++ filter (fun q => q <> "exit" /\ strip q <> "") read.
Proof.
  revert log. induction stdin as [|query stdin IH]; intros log.
  - exists []. simpl. split; [done|]. by rewrite asked_app, !app_nil_r.
  - simpl.
    destruct (String.eqb_spec query "exit") as [->|Hne].
    { exists ["exit"]. simpl. split; [done|].
      rewrite asked_app, filter_cons_False by (intros [H _]; done).
      by rewrite filter_nil. }
    destruct (String.eqb_spec (strip query) "") as [Hblank|Hletter].
    { destruct (IH (log ++ [the_prompt])) as (read & Hread & Hasked).
      exists (query :: read). split; [simpl; congruence|].
      rewrite Hasked, asked_app, filter_cons_False by (intros [_ H]; done).
      by rewrite app_nil_r. }
    assert (filter (fun q : string => q <> "exit" /\ strip q <> "") [query] = [query]) as Hone.
    { by rewrite filter_cons_True, filter_nil. }
    unfold answer_query.
    destruct (qa qa_chain query) as [res|e].
    + pose proof (print_sources_asks_nothing
                    (if hide_source args then [] else source_documents res)
                    ((log ++ [the_prompt])
                     ++ [Ask query; Print (nl +:+ nl +:+ " > Question:"); Print query;
                         Print (nl +:+ "> Answer (took " +:+ seconds res +:+ "s.):");
                         Print (result res)])) as Hprint.
      destruct (print_sources _ _) as [[[]|e] l]; simpl in Hprint.
      * destruct (IH l) as (read & Hread & Hasked).
        exists (query :: read). split; [simpl; congruence|].
        rewrite Hasked, Hprint, !asked_app, filter_cons_True by done.
        simpl. by rewrite app_nil_r, <- app_assoc.
      * exists [query]. split; [done|].
        simpl. rewrite Hone, Hprint, !asked_app. simpl. by rewrite app_nil_r.
    + exists [query]. split; [done|].
      simpl. rewrite Hone, !asked_app. simpl. by rewrite app_nil_r.
Qed.

(** X4. [print_sources] prints two lines for each document, in order, as
    long as the documents carry a ["source"]; at the first document without
    one it raises [KeyError] and the lines of the documents before it stay
    printed. *)
Theorem print_sources_stops_at_missing_source (docs : list Ingest.Document)
    (log : list event) :
  (Forall (fun d => is_Some (Ingest.metadata d !! "source")) docs ->
   print_sources docs log = (Return tt, log ++ flat_map source_lines docs))
  /\ (forall before d after,
        docs = before ++ d :: after ->
        Forall (fun d => is_Some (Ingest.metadata d !! "source")) before ->
        Ingest.metadata d !! "source" = None ->
        print_sources docs log
        = (Raise (KeyError "source"), log ++ flat_map source_lines before)).
Proof.
  split.
  - revert log. induction docs as [|d docs IH]; intros log Hall; simpl.
    + by rewrite app_nil_r.
    + apply Forall_cons in Hall as [[src Hsrc] Hall].
      rewrite Hsrc, IH by done. simpl. by rewrite <- app_assoc.
  - intros before d after -> Hall Hnone. revert log.
    induction before as [|b before IH]; intros log; simpl.
    + by rewrite Hnone, app_nil_r.
    + apply Forall_cons in Hall as [[src Hsrc] Hall].
      rewrite Hsrc, IH by done. simpl. by rewrite <- app_assoc.
Qed.

End AnswerLoopRuns.

Lemma non_blank_query_reaches_chain_witness :
  "What is retention?" <> "exit"
  /\ all_chars isspace "What is retention?" = false
  /\ query_loop Sample.qa Sample.args Sample.a_chain ["What is retention?"; "exit"] []
     = (Return tt, [],
        [the_prompt;
         Ask "What is retention?";
         Print (nl +:+ nl +:+ " > Question:");
         Print "What is retention?";
         Print (nl +:+ "> Answer (took 1.25s.):");
         Print "It depends on the contract.";
         Print (nl +:+ "> source_documents/c.txt:");
         Print (Ingest.page_content (Sample.doc "source_documents/c.txt"));
         the_prompt]).
Proof.
  assert (H1 : "What is retention?" <> "exit") by discriminate.
  split; [exact H1|]. split; [reflexivity|].
  rewrite (non_blank_query_reaches_chain Sample.qa Sample.args Sample.a_chain
             "What is retention?" ["exit"] [] H1 eq_refl).
  reflexivity.
Defined.

Lemma loop_returns_only_at_sentinel_witness :
  query_loop Sample.qa Sample.args Sample.a_chain ["  "; "exit"; "later"] []
  = (Return tt, ["later"], [the_prompt; the_prompt])
  /\ exists before, ["  "; "exit"; "later"] = before ++ "exit" :: ["later"]
                    /\ "exit" ∉ before.
Proof.
  assert (H1 : query_loop Sample.qa Sample.args Sample.a_chain ["  "; "exit"; "later"] []
               = (Return tt, ["later"], [the_prompt; the_prompt])) by reflexivity.
  split; [exact H1|].
  exact (loop_returns_only_at_sentinel Sample.qa Sample.args Sample.a_chain
           ["  "; "exit"; "later"] [] ["later"] [the_prompt; the_prompt] H1).
Defined.

Lemma print_sources_stops_at_missing_source_witness :
  print_sources [Sample.doc "source_documents/c.txt"] []
  = (Return tt, source_lines (Sample.doc "source_documents/c.txt"))
  /\ print_sources [Sample.doc "source_documents/c.txt"; Sample.stray_doc;
                    Sample.doc "source_documents/a.txt"] []
     = (Raise (KeyError "source"), source_lines (Sample.doc "source_documents/c.txt")).
Proof.
  assert (H1 : Forall (fun d => is_Some (Ingest.metadata d !! "source"))
                 [Sample.doc "source_documents/c.txt"]).
  { constructor; [|constructor].
    exists "source_documents/c.txt". reflexivity. }
  split.
  - exact (proj1 (print_sources_stops_at_missing_source
                    [Sample.doc "source_documents/c.txt"] []) H1).
  - exact (proj2 (print_sources_stops_at_missing_source
                    [Sample.doc "source_documents/c.txt"; Sample.stray_doc;
                     Sample.doc "source_documents/a.txt"] [])
             [Sample.doc "source_documents/c.txt"] Sample.stray_doc
             [Sample.doc "source_documents/a.txt"] eq_refl H1 eq_refl).
Defined.

(** ** The choice of the language model *)
Section ModelChoice.
Import Py Env PrivateGPT.

Variable cfg : config.

Lemma eq_literal_true (v : option string) (literal : string) :
  eq_literal v literal = true <-> v = Some literal.
Proof.
  destruct v as [s|]; simpl; [|done].
  rewrite String.eqb_eq. split; congruence.
Qed.

(** X5. The [match] of [main] builds a language model exactly for the model
    types ["LlamaCpp"] and ["GPT4ALL"], compared letter for letter, and hands
    it the model path, the context size and the batch size of the
    configuration. The spelling ["GPT4All"], which the error message itself
    names as a choice, is rejected with that message. *)
Theorem select_llm_supported (callbacks : list callback) :
  (model_type cfg = Some "LlamaCpp" ->
   select_llm cfg callbacks
   = Return (Llamacpp (model_path cfg) (model_n_ctx cfg) (model_n_batch cfg) callbacks false))
  /\ (model_type cfg = Some "GPT4ALL" ->
      select_llm cfg callbacks
      = Return (GPT4All (model_path cfg) (model_n_ctx cfg) "gptj" (model_n_batch cfg)
                  callbacks false))
  /\ (forall llm, select_llm cfg callbacks = Return llm ->
        model_type cfg = Some "LlamaCpp" \/ model_type cfg = Some "GPT4ALL")
  /\ (model_type cfg = Some "GPT4All" ->
      select_llm cfg callbacks
      = Raise (Exception
          "Model Type GPT4All is not supported. Please choose either 'LlamaCpp' or 'GPT4All'")).
Proof.
  unfold select_llm. repeat split.
  - by intros ->.
  - by intros ->.
  - intros llm.
    destruct (eq_literal (model_type cfg) "LlamaCpp") eqn:Hl.
    { apply eq_literal_true in Hl. auto. }
    destruct (eq_literal (model_type cfg) "GPT4ALL") eqn:Hg; [|done].
    apply eq_literal_true in Hg. auto.
  - by intros ->.
Qed.

End ModelChoice.

Lemma select_llm_supported_witness :
  model_type (Sample.cfg_of (Some "GPT4ALL")) = Some "GPT4ALL"
  /\ select_llm (Sample.cfg_of (Some "GPT4ALL")) []
     = Return (GPT4All (Some "models/ggml-gpt4all-j.bin") (Some "1000") "gptj" 8 [] false)
  /\ model_type (Sample.cfg_of (Some "GPT4All")) = Some "GPT4All"
  /\ select_llm (Sample.cfg_of (Some "GPT4All")) []
     = Raise (Exception
         "Model Type GPT4All is not supported. Please choose either 'LlamaCpp' or 'GPT4All'").
Proof.
  split; [reflexivity|]. split.
  - exact (proj1 (proj2 (select_llm_supported (Sample.cfg_of (Some "GPT4ALL")) [])) eq_refl).
  - split; [reflexivity|].
    exact (proj2 (proj2 (proj2 (select_llm_supported (Sample.cfg_of (Some "GPT4All")) [])))
             eq_refl).
Defined.

(** ** More on the scan *)
Section ScanRuns.
Import Py Fs Ingest.

Variable load : loader_class -> list (string * string) -> string -> outcome (list Document).
Variable expand : string -> list (string * list entry).

Lemma append_cons (x : ascii) (a b : string) : String x a +:+ b = String x (a +:+ b).
Proof. reflexivity. Qed.

Lemma append_assoc (a b c : string) : (a +:+ b) +:+ c = a +:+ (b +:+ c).
Proof. induction a as [|x a IH]; [done|]. by rewrite !append_cons, IH. Qed.

Lemma substring_all (s : string) : String.substring 0 (String.length s) s = s.
Proof. induction s as [|c s IH]; simpl; [done|]. by rewrite IH. Qed.

Lemma substring_tail (s : string) :
  forall k, k <= String.length s ->
  exists pre, s = pre +:+ String.substring k (String.length s - k) s.
Proof.
  induction s as [|c s IH]; intros k Hk.
  - exists "". simpl in *. by destruct k.
  - destruct k as [|k].
    + exists "". rewrite Nat.sub_0_r. by rewrite substring_all.
    + simpl in Hk. destruct (IH k) as [pre Hpre]; [lia|].
      exists (String c pre). rewrite append_cons. simpl. by rewrite <- Hpre.
Qed.

Lemma endswith_app (n suffix : string) :
  endswith n suffix = true -> exists pre, n = pre +:+ suffix.
Proof.
  unfold endswith. intros [Hlen Heq]%andb_prop.
  apply Nat.leb_le in Hlen. apply String.eqb_eq in Heq.
  assert (String.length n - String.length suffix <= String.length n) as Hk by lia.
  destruct (substring_tail n _ Hk) as [pre Hpre].
  replace (String.length n - (String.length n - String.length suffix))
    with (String.length suffix) in Hpre by lia.
  rewrite Heq in Hpre. by exists pre.
Qed.

Lemma app_endswith (pre suffix : string) : endswith (pre +:+ suffix) suffix = true.
Proof.
  unfold endswith.
  assert (String.length (pre +:+ suffix) = String.length pre + String.length suffix) as ->.
  { induction pre as [|c pre IH]; [done|]. rewrite append_cons. simpl. by rewrite IH. }
  apply andb_true_intro. split; [apply Nat.leb_le; lia|].
  apply String.eqb_eq.
  replace (String.length pre + String.length suffix - String.length suffix)
    with (String.length pre) by lia.
  induction pre as [|c pre IH]; [apply substring_all|]. by rewrite append_cons.
Qed.

Lemma os_path_join_ends (a b : string) : exists pre, os_path_join a b = pre +:+ b.
Proof.
  unfold os_path_join. destruct (startswith b "/"); [by exists ""|].
  destruct (_ || _); [by exists a|].
  exists (a +:+ "/"). by rewrite append_assoc.
Qed.

Lemma elem_of_flat_map {A B} (f : A -> list B) (l : list A) (y : B) :
  y ∈ flat_map f l <-> exists x, x ∈ l /\ y ∈ f x.
Proof.
  rewrite list_elem_of_In, in_flat_map.
  split; intros (x & H1 & H2); exists x; by rewrite ?list_elem_of_In in *.
Qed.

Lemma elem_of_map {A B} (f : A -> B) (l : list A) (y : B) :
  y ∈ map f l <-> exists x, y = f x /\ x ∈ l.
Proof.
  rewrite list_elem_of_In, in_map_iff.
  split; intros (x & H1 & H2); exists x; by rewrite ?list_elem_of_In in *.
Qed.

Lemma glob_recursive_suffix (source_dir : string) (root : list entry)
    (suffix p : string) :
  p ∈ glob_recursive expand source_dir root suffix -> exists pre, p = pre +:+ suffix.
Proof.
  unfold glob_recursive. intros (rc & _ & Hp)%elem_of_flat_map.
  apply elem_of_map in Hp as (n & -> & Hn).
  unfold glob1 in Hn. apply list_elem_of_filter in Hn as [Hends _].
  destruct (endswith_app _ _ Hends) as [pre ->].
  destruct (os_path_join_ends (fst rc) (pre +:+ suffix)) as [pre' ->].
  exists (pre' +:+ pre). by rewrite append_assoc.
Qed.

Lemma after_last_dot_app (x y t : string) :
  after_last_dot y = Some t -> after_last_dot (x +:+ y) = Some t.
Proof.
  intros H. induction x as [|c x IH]; [done|].
  rewrite append_cons. simpl. by rewrite IH.
Qed.

(** Each pattern of the scan ends in an extension that leads back to the
    table entry it comes from. *)
Lemma patterns_lead_back :
  Forall (fun kv =>
            forall suffix, suffix = lower (fst kv) \/ suffix = upper (fst kv) ->
            exists t, after_last_dot suffix = Some t
                      /\ registry_get LOADER_MAPPING ("." +:+ lower t) = Some (snd kv))
         LOADER_MAPPING.
Proof.
  unfold LOADER_MAPPING.
  repeat (constructor; [intros suffix [->| ->]; eexists; split; reflexivity|]).
  constructor.
Qed.

Lemma registry_get_in (reg : registry) (ext : string)
    (v : loader_class * list (string * string)) :
  registry_get reg ext = Some v -> (ext, v) ∈ reg.
Proof.
  induction reg as [|[k v'] reg IH]; [done|]. simpl.
  destruct (String.eqb_spec k ext) as [->|_]; intros Hget; apply elem_of_cons.
  - left. congruence.
  - right. auto.
Qed.

Lemma discovered_path_extension (root : list entry) (source_dir p : string) :
  p ∈ all_files root expand source_dir ->
  exists v, registry_get LOADER_MAPPING ("." +:+ lower (rsplit_dot_last p)) = Some v.
Proof.
  unfold all_files. intros (kv & Hkv & Hp)%elem_of_flat_map.
  pose proof patterns_lead_back as Hback.
  rewrite Forall_forall in Hback. specialize (Hback kv Hkv).
  assert (exists suffix pre,
            (suffix = lower (fst kv) \/ suffix = upper (fst kv)) /\ p = pre +:+ suffix)
    as (suffix & pre & Hsuffix & ->).
  { apply elem_of_app in Hp as [Hp|Hp];
      apply glob_recursive_suffix in Hp as [pre ->]; eauto. }
  destruct (Hback suffix Hsuffix) as (t & Hdot & Hget).
  exists (snd kv). unfold rsplit_dot_last.
  by rewrite (after_last_dot_app pre _ _ Hdot).
Qed.

(** X6. Every path the scan discovers has a loader: its extension, as
    [load_single_document] computes it, is a key of [LOADER_MAPPING], and the
    call on it is the call of the loader bound to that key. The error for an
    unsupported extension cannot come up for a discovered file. *)
Theorem every_discovered_file_has_a_loader (root : list entry)
    (source_dir p : string) :
  p ∈ all_files root expand source_dir ->
  exists loader_class loader_args,
    ("." +:+ lower (rsplit_dot_last p), (loader_class, loader_args)) ∈ LOADER_MAPPING
    /\ load_single_document load p LOADER_MAPPING
       = (load loader_class loader_args p, LOADER_MAPPING).
Proof.
  intros Hp.
  destruct (discovered_path_extension root source_dir p Hp) as [[c a] Hget].
  exists c, a. split.
  - by apply registry_get_in.
  - unfold load_single_document. by rewrite Hget.
Qed.

End ScanRuns.

Section ScanOutcomes.
Import Py Fs Ingest.

Variable load : loader_class -> list (string * string) -> string -> outcome (list Document).
Variable root : list entry.
Variable expand : string -> list (string * list entry).

(** The documents a path loads to, none when the loader raises. *)
Lemma collect_returns (paths : list string) :
  forall results r,
  collect load results paths = Return r ->
  exists docs : string -> list Document,
    (forall p, p ∈ paths -> fst (load_single_document load p LOADER_MAPPING) = Return (docs p))
    /\ r = results ++ flat_map docs paths.
Proof.
  induction paths as [|q paths IH]; intros results r Hrun; simpl in Hrun.
  - exists (fun _ => []). split.
    + intros p Hp. by apply elem_of_nil in Hp.
    + simplify_eq. by rewrite app_nil_r.
  - destruct (fst (load_single_document load q LOADER_MAPPING)) as [d|e] eqn:Hq; [|done].
    destruct (IH _ _ Hrun) as (docs & Hall & ->).
    exists (fun p => if decide (p = q) then d else docs p). split.
    + intros p Hp. destruct (decide (p = q)) as [->|Hne]; [done|].
      apply elem_of_cons in Hp as [?|Hp]; [done|]. auto.
    + simpl. rewrite decide_True by done. rewrite <- app_assoc. do 2 f_equal.
      clear -Hall Hq. induction paths as [|p paths IH]; [done|]. simpl.
      rewrite IH by (intros p' Hp'; apply Hall, elem_of_cons; by right).
      f_equal. destruct (decide (p = q)) as [->|_]; [|done].
      pose proof (Hall q ltac:(apply elem_of_cons; by left)) as Hd. congruence.
Qed.

Lemma collect_raises (paths : list string) :
  forall results e,
  collect load results paths = Raise e ->
  exists p, p ∈ paths /\ fst (load_single_document load p LOADER_MAPPING) = Raise e.
Proof.
  induction paths as [|q paths IH]; intros results e Hrun; simpl in Hrun; [done|].
  destruct (fst (load_single_document load q LOADER_MAPPING)) as [d|e'] eqn:Hq.
  - destruct (IH _ _ Hrun) as (p & Hp & Hraise).
    exists p. split; [apply elem_of_cons; by right|done].
  - simplify_eq. exists q. split; [apply elem_of_cons; by left|done].
Qed.

(** X7. An exception that comes out of [load_documents] was raised by a
    loader: by the loader that [LOADER_MAPPING] binds to the extension of a
    file that passed the filter, called on that file. [load_documents] itself
    adds no error of its own. *)
Theorem load_documents_raises_only_loader_errors (arrival : list string -> list string)
    (source_dir : string) (ignored_files : list string) (e : exn) :
  arrival (filtered_files root expand source_dir ignored_files)
  ≡ₚ filtered_files root expand source_dir ignored_files ->
  load_documents load arrival root expand source_dir ignored_files = Raise e ->
  exists p loader_class loader_args,
    p ∈ all_files root expand source_dir
    /\ (p ∉ ignored_files)
    /\ ("." +:+ lower (rsplit_dot_last p), (loader_class, loader_args)) ∈ LOADER_MAPPING
    /\ load loader_class loader_args p = Raise e.
Proof.
  intros Hperm Hrun. unfold load_documents in Hrun.
  apply collect_raises in Hrun as (p & Hp & Hraise).
  rewrite Hperm in Hp. unfold filtered_files in Hp.
  apply list_elem_of_filter in Hp as [Hnot Hp].
  destruct (discovered_path_extension expand root source_dir p Hp) as [[c a] Hget].
  exists p, c, a. repeat split; [done..|by apply registry_get_in|].
  unfold load_single_document in Hraise. by rewrite Hget in Hraise.
Qed.

(** X8. The order in which the pool hands back the results changes the order
    of the documents only: when [load_documents] returns under one order of
    arrival, it returns under any other, with the same documents up to their
    order. *)
Theorem load_documents_order_irrelevant (arrival1 arrival2 : list string -> list string)
    (source_dir : string) (ignored_files : list string) (docs1 : list Document) :
  arrival1 (filtered_files root expand source_dir ignored_files)
  ≡ₚ filtered_files root expand source_dir ignored_files ->
  arrival2 (filtered_files root expand source_dir ignored_files)
  ≡ₚ filtered_files root expand source_dir ignored_files ->
  load_documents load arrival1 root expand source_dir ignored_files = Return docs1 ->
  exists docs2,
    load_documents load arrival2 root expand source_dir ignored_files = Return docs2
    /\ docs1 ≡ₚ docs2.
Proof.
  intros Hp1 Hp2 Hrun. unfold load_documents in *.
  apply collect_returns in Hrun as (docs & Hall & ->).
  exists (flat_map docs (arrival2 (filtered_files root expand source_dir ignored_files))).
  split.
  - rewrite (collect_succeeds load docs); [done|].
    intros p Hp. apply Hall. by rewrite Hp1, <- Hp2.
  - simpl. apply Permutation_flat_map. by rewrite Hp1, Hp2.
Qed.

Lemma child_path_listed (source_dir suffix name : string) :
  has_magic source_dir = false ->
  name ∈ glob1 root suffix ->
  child_path source_dir name ∈ glob_recursive expand source_dir root suffix.
Proof.
  intros Hplain Hname. unfold glob_recursive, visited. rewrite Hplain.
  apply elem_of_flat_map.
  exists (os_path_join (glob_dirname source_dir) "", root).
  split; [apply elem_of_cons; by left|].
  apply elem_of_map. by exists name.
Qed.

(** X9. Where the name of the source directory holds none of the pattern
    characters of [glob], an entry that lies in the source directory itself,
    whose name does not start with a dot and ends with a key of
    [LOADER_MAPPING] written all in lower case or all in upper case, is
    discovered by the scan, under its [child_path]. *)
Theorem plain_case_extension_is_discovered (source_dir : string) (e : entry)
    (ext : string) (loader : loader_class * list (string * string)) :
  has_magic source_dir = false ->
  e ∈ root ->
  (ext, loader) ∈ LOADER_MAPPING ->
  ishidden (entry_name e) = false ->
  endswith (entry_name e) (lower ext) = true
  \/ endswith (entry_name e) (upper ext) = true ->
  child_path source_dir (entry_name e) ∈ all_files root expand source_dir.
Proof.
  intros Hplain He Hext Hshown Hends. unfold all_files. apply elem_of_flat_map.
  exists (ext, loader). split; [done|]. simpl.
  assert (forall suffix, endswith (entry_name e) suffix = true ->
            entry_name e ∈ glob1 root suffix) as Hglob.
  { intros suffix Hs. unfold glob1.
    apply list_elem_of_filter. split; [done|].
    apply list_elem_of_filter. split; [done|].
    apply elem_of_map. by exists e. }
  apply elem_of_app.
  destruct Hends as [Hl|Hu]; [left|right]; by apply child_path_listed, Hglob.
Qed.

Lemma hidden_listing_has_no_directory (listing : list entry) :
  Forall (fun e => ishidden (entry_name e) = true) listing -> rlistdir listing = [].
Proof.
  unfold rlistdir. induction 1 as [|e listing He _ IH]; [done|].
  simpl. rewrite IH, app_nil_r.
  destruct e as [n|n children]; [done|]. simpl in *. by rewrite He.
Qed.

Lemma hidden_listing_matches_nothing (listing : list entry) (suffix : string) :
  Forall (fun e => ishidden (entry_name e) = true) listing -> glob1 listing suffix = [].
Proof.
  unfold glob1. induction 1 as [|e listing He _ IH]; [done|].
  simpl. rewrite filter_cons_False by (rewrite He; done). by rewrite IH.
Qed.

(** X10. Where its name holds none of the pattern characters of [glob], a
    source directory that is empty, or whose entries all have names starting
    with a dot, gives the scan nothing: hidden files are not matched and
    hidden directories are not entered. *)
Theorem hidden_entries_are_not_scanned (source_dir : string) :
  has_magic source_dir = false ->
  Forall (fun e => ishidden (entry_name e) = true) root ->
  all_files root expand source_dir = [].
Proof.
  intros Hplain Hhidden. unfold all_files.
  induction LOADER_MAPPING as [|kv reg IH]; [done|].
  cbn [flat_map].
  rewrite IH, !glob_recursive_flat
    by (done || by apply hidden_listing_has_no_directory).
  by rewrite !(hidden_listing_matches_nothing _ _ Hhidden).
Qed.

End ScanOutcomes.

Lemma every_discovered_file_has_a_loader_witness :
  "source_documents/b.TXT"
  ∈ Ingest.all_files [Fs.File "a.txt"; Fs.File "b.TXT"] Sample.no_expand "source_documents"
  /\ exists loader_class loader_args,
       ("." +:+ lower (rsplit_dot_last "source_documents/b.TXT"),
        (loader_class, loader_args)) ∈ Ingest.LOADER_MAPPING
       /\ Ingest.load_single_document Sample.load_any "source_documents/b.TXT"
            Ingest.LOADER_MAPPING
          = (Sample.load_any loader_class loader_args "source_documents/b.TXT",
             Ingest.LOADER_MAPPING).
Proof.
  assert (H1 : "source_documents/b.TXT"
               ∈ Ingest.all_files [Fs.File "a.txt"; Fs.File "b.TXT"]
                   Sample.no_expand "source_documents").
  { apply (bool_decide_unpack _). exact I. }
  split; [exact H1|].
  exact (every_discovered_file_has_a_loader Sample.load_any Sample.no_expand
           [Fs.File "a.txt"; Fs.File "b.TXT"] "source_documents"
           "source_documents/b.TXT" H1).
Defined.

Lemma load_documents_raises_only_loader_errors_witness :
  Ingest.load_documents Sample.load_but_a Sample.last_first
    [Fs.File "a.txt"; Fs.File "b.txt"] Sample.no_expand "source_documents" []
  = Raise (Exception "a.txt cannot be decoded")
  /\ exists p loader_class loader_args,
       p ∈ Ingest.all_files [Fs.File "a.txt"; Fs.File "b.txt"] Sample.no_expand "source_documents"
       /\ (p ∉ [])
       /\ ("." +:+ lower (rsplit_dot_last p), (loader_class, loader_args))
          ∈ Ingest.LOADER_MAPPING
       /\ Sample.load_but_a loader_class loader_args p
          = Raise (Exception "a.txt cannot be decoded").
Proof.
  assert (H1 : Ingest.load_documents Sample.load_but_a Sample.last_first
                 [Fs.File "a.txt"; Fs.File "b.txt"] Sample.no_expand "source_documents" []
               = Raise (Exception "a.txt cannot be decoded")) by reflexivity.
  split; [exact H1|].
  apply (load_documents_raises_only_loader_errors Sample.load_but_a
           [Fs.File "a.txt"; Fs.File "b.txt"] Sample.no_expand Sample.last_first
           "source_documents" []).
  - change (["source_documents/b.txt"; "source_documents/a.txt"]
            ≡ₚ ["source_documents/a.txt"; "source_documents/b.txt"]).
    apply perm_swap.
  - exact H1.
Defined.

Lemma load_documents_order_irrelevant_witness :
  Ingest.load_documents Sample.load_any Sample.in_order
    [Fs.File "a.txt"; Fs.File "b.txt"] Sample.no_expand "source_documents" []
  = Return [Sample.doc "source_documents/a.txt"; Sample.doc "source_documents/b.txt"]
  /\ exists docs2,
       Ingest.load_documents Sample.load_any Sample.last_first
         [Fs.File "a.txt"; Fs.File "b.txt"] Sample.no_expand "source_documents" [] = Return docs2
       /\ [Sample.doc "source_documents/a.txt"; Sample.doc "source_documents/b.txt"]
          ≡ₚ docs2.
Proof.
  assert (H1 : Ingest.load_documents Sample.load_any Sample.in_order
                 [Fs.File "a.txt"; Fs.File "b.txt"] Sample.no_expand "source_documents" []
               = Return [Sample.doc "source_documents/a.txt";
                         Sample.doc "source_documents/b.txt"]) by reflexivity.
  split; [exact H1|].
  apply (load_documents_order_irrelevant Sample.load_any
           [Fs.File "a.txt"; Fs.File "b.txt"] Sample.no_expand Sample.in_order
           Sample.last_first "source_documents" []).
  - reflexivity.
  - change (["source_documents/b.txt"; "source_documents/a.txt"]
            ≡ₚ ["source_documents/a.txt"; "source_documents/b.txt"]).
    apply perm_swap.
  - exact H1.
Defined.

Lemma plain_case_extension_is_discovered_witness :
  Fs.has_magic "source_documents" = false
  /\ Fs.ishidden "b.TXT" = false
  /\ endswith "b.TXT" (upper ".txt") = true
  /\ Fs.child_path "source_documents" "b.TXT"
     ∈ Ingest.all_files [Fs.File "a.txt"; Fs.File "b.TXT"] Sample.no_expand "source_documents".
Proof.
  split; [reflexivity|]. split; [reflexivity|]. split; [reflexivity|].
  apply (plain_case_extension_is_discovered [Fs.File "a.txt"; Fs.File "b.TXT"]
           Sample.no_expand "source_documents" (Fs.File "b.TXT") ".txt"
           (Ingest.TextLoader, [("encoding", "utf8")])).
  - reflexivity.
  - apply elem_of_cons. right. apply elem_of_cons. by left.
  - do 11 (apply elem_of_cons; right). apply elem_of_cons. by left.
  - reflexivity.
  - right. reflexivity.
Defined.

Lemma hidden_entries_are_not_scanned_witness :
  Fs.has_magic "source_documents" = false
  /\ Ingest.all_files [Fs.File ".notes.txt"; Fs.Dir ".cache" [Fs.File "old.pdf"]]
       Sample.no_expand "source_documents" = [].
Proof.
  split; [reflexivity|].
  apply (hidden_entries_are_not_scanned
           [Fs.File ".notes.txt"; Fs.Dir ".cache" [Fs.File "old.pdf"]] Sample.no_expand
           "source_documents").
  - reflexivity.
  - repeat constructor.
Defined.

(** ** More on ingestion runs *)
Section IngestionRuns.
Import Py Env Fs Ingest.

Variable load : loader_class -> list (string * string) -> string -> outcome (list Document).
Variable arrival : list string -> list string.
Variable split_documents : Z -> Z -> list Document -> list Document.
Variable root : list entry.
Variable expand : string -> list (string * list entry).
Variable open_store : config -> outcome unit.
Variable embed : list Document -> outcome unit.
Variable write : list Document -> outcome unit.
Variable cfg : config.

Lemma sources_first_missing (before after : list Document) (r : Document) :
  Forall (fun r' => is_Some (metadata r' !! "source")) before ->
  metadata r !! "source" = None ->
  sources (before ++ r :: after)
  = Raise (if bool_decide (metadata r = ∅)
           then TypeError "'NoneType' object is not subscriptable"
           else KeyError "source").
Proof.
  intros Hbefore Hnone.
  induction Hbefore as [|r' before [s Hs] _ IH]; simpl.
  - rewrite Hnone. by case_bool_decide.
  - by rewrite Hs, IH.
Qed.

Lemma main_append_stops (w : world) (e : exn) :
  open_store cfg = Return tt ->
  store w <> [] ->
  sources (store w) = Raise e ->
  main load arrival split_documents root expand open_store embed write cfg w
  = (Raise e,
     {| store := store w;
        log := log w ++ [Print ("Appending to existing vectorstore at "
                                +:+ fmt (persist_directory cfg))] |}).
Proof.
  intros Hopen Hne Hsrc.
  destruct (store w) as [|r' records] eqn:Hstore; [done|].
  unfold main. unfold bindM at 1, lift at 1. rewrite Hopen.
  unfold bindM at 1, does_vectorstore_exist. rewrite Hstore.
  cbn. unfold bindM, print, emit, get_collection, lift.
  cbn. by rewrite ?Hstore, Hsrc.
Qed.

Lemma sources_present (records : list Document) :
  Forall (fun r => is_Some (metadata r !! "source")) records ->
  sources records
  = Return (map (fun r => default "" (metadata r !! "source")) records).
Proof.
  induction 1 as [|r records [s Hs] _ IH]; [done|].
  simpl. by rewrite Hs, IH.
Qed.

Lemma nothing_passes_the_filter (source_dir : string) (ignored : list string) :
  (forall p, p ∈ all_files root expand source_dir -> p ∈ ignored) ->
  filtered_files root expand source_dir ignored = [].
Proof.
  intros Hall. unfold filtered_files.
  induction (all_files root expand source_dir) as [|p files IH]; [done|].
  rewrite filter_cons_False.
  - apply IH. intros q Hq. apply Hall, elem_of_cons. by right.
  - intros Hnot. apply Hnot, Hall, elem_of_cons. by left.
Qed.

Ltac no_persist :=
  let H := fresh in
  intros H;
  repeat (apply elem_of_app in H as [H|H]);
  repeat (apply elem_of_cons in H as [H|H]; [by repeat case_match|]);
  by apply elem_of_nil in H.

(** X11. A run that finds new documents, embeds their chunks and writes them
    into the collection ends normally with the chunks of those documents
    added after the records the store held, in create mode and in append mode
    alike; the store is persisted after the write and the completion line is
    printed last. *)
Theorem successful_run_appends_chunks (w : world) (ignored : list string)
    (documents : list Document) :
  open_store cfg = Return tt ->
  match store w with
  | [] => Return []
  | _ :: _ => sources (store w)
  end = Return ignored ->
  load_documents load arrival root expand (source_directory cfg) ignored = Return documents ->
  documents <> [] ->
  embed (split_documents (chunk_size cfg) (chunk_overlap cfg) documents) = Return tt ->
  write (split_documents (chunk_size cfg) (chunk_overlap cfg) documents) = Return tt ->
  exists written,
    main load arrival split_documents root expand open_store embed write cfg w
    = (Return tt,
       {| store := store w ++ split_documents (chunk_size cfg) (chunk_overlap cfg) documents;
          log := log w ++ written
                 ++ [Persist;
                     Print "Ingestion complete! You can now run PrivateGPT.py to query your documents."] |})
    /\ (Persist ∉ written)
    /\ (SplitDocuments documents ∈ written).
Proof.
  intros Hopen Hign Hscan Hnew Hembed Hwrite.
  rewrite (main_after_scan load arrival split_documents root expand open_store embed write
             cfg w ignored Hopen Hign), Hscan.
  destruct documents as [|d docs]; [done|]. cbv zeta. rewrite Hembed, Hwrite.
  match goal with
  | |- context [(log w ++ ?started) ++ ?embedding] => exists (started ++ embedding)
  end.
  split; [|split].
  - by rewrite <- !app_assoc.
  - no_persist.
  - do 3 (apply elem_of_cons; right). apply elem_of_cons. by left.
Qed.


(** X13. A run in append mode over a source directory in which every file
    the scan discovers is already a stored source loads nothing: it prints
    that there is nothing new and leaves through [exit(0)] with the store
    as it was. *)
Theorem rerun_without_new_files_is_a_no_op (w : world) (ignored : list string) :
  open_store cfg = Return tt ->
  store w <> [] ->
  sources (store w) = Return ignored ->
  (forall p, p ∈ all_files root expand (source_directory cfg) -> p ∈ ignored) ->
  arrival [] ≡ₚ [] ->
  main load arrival split_documents root expand open_store embed write cfg w
  = (Raise (SystemExit 0),
     {| store := store w;
        log := log w
               ++ [Print ("Appending to existing vectorstore at "
                          +:+ fmt (persist_directory cfg));
                   Print ("Loading documents from " +:+ source_directory cfg);
                   Print "No new documents to load"] |}).
Proof.
  intros Hopen Hstore Hsrc Hall Harr.
  assert (match store w with [] => Return [] | _ :: _ => sources (store w) end
          = Return ignored) as Hign.
  { by destruct (store w). }
  rewrite (main_after_scan load arrival split_documents root expand open_store embed write
             cfg w ignored Hopen Hign).
  unfold load_documents. rewrite (nothing_passes_the_filter _ _ Hall).
  apply Permutation_nil_r in Harr. rewrite Harr. simpl.
  destruct (store w); [done|]. by rewrite <- app_assoc.
Qed.

(** X14. The ignore list of append mode is read off the stored records in
    order. When every record carries a ["source"] it is the list of those
    entries, one for each record. Otherwise the first record without one
    stops [main] right after the line that announces append mode, before any
    file is scanned: with [TypeError] when the record was stored with no
    metadata at all, for which the collection hands back [None], and with
    [KeyError] when it has metadata without that key. *)
Theorem record_without_source_stops_append (w : world) :
  (Forall (fun r => is_Some (metadata r !! "source")) (store w) ->
   sources (store w)
   = Return (map (fun r => default "" (metadata r !! "source")) (store w)))
  /\ (forall before r after,
        store w = before ++ r :: after ->
        Forall (fun r' => is_Some (metadata r' !! "source")) before ->
        metadata r !! "source" = None ->
        open_store cfg = Return tt ->
        main load arrival split_documents root expand open_store embed write cfg w
        = (Raise (if bool_decide (metadata r = ∅)
                  then TypeError "'NoneType' object is not subscriptable"
                  else KeyError "source"),
           {| store := store w;
              log := log w ++ [Print ("Appending to existing vectorstore at "
                                      +:+ fmt (persist_directory cfg))] |})).
Proof.
  split; [apply sources_present|].
  intros before r after Hstore Hbefore Hnone Hopen.
  apply main_append_stops; [done|rewrite Hstore; by destruct before|].
  rewrite Hstore. by apply sources_first_missing.
Qed.

End IngestionRuns.

Lemma successful_run_appends_chunks_witness :
  Ingest.load_documents Sample.load_any Sample.in_order [Fs.File "c.txt"] Sample.no_expand
    "source_documents" [] = Return [Sample.doc "source_documents/c.txt"]
  /\ fst (Ingest.main Sample.load_any Sample.in_order Sample.no_split [Fs.File "c.txt"]
      Sample.no_expand
            Sample.opens Sample.opens Sample.opens Sample.ingest_cfg
            {| Ingest.store := []; Ingest.log := [] |}) = Return tt
  /\ Ingest.store
       (snd (Ingest.main Sample.load_any Sample.in_order Sample.no_split [Fs.File "c.txt"]
           Sample.no_expand
               Sample.opens Sample.opens Sample.opens Sample.ingest_cfg
               {| Ingest.store := []; Ingest.log := [] |}))
     = [Sample.doc "source_documents/c.txt"].
Proof.
  assert (H1 : Ingest.load_documents Sample.load_any Sample.in_order [Fs.File "c.txt"]
      Sample.no_expand
                 "source_documents" [] = Return [Sample.doc "source_documents/c.txt"])
    by reflexivity.
  split; [exact H1|].
  destruct (successful_run_appends_chunks Sample.load_any Sample.in_order Sample.no_split
              [Fs.File "c.txt"] Sample.no_expand Sample.opens Sample.opens Sample.opens
              Sample.ingest_cfg
              {| Ingest.store := []; Ingest.log := [] |} []
              [Sample.doc "source_documents/c.txt"] eq_refl eq_refl H1
              ltac:(discriminate) eq_refl eq_refl)
    as (written & Hmain & _ & _).
  rewrite Hmain. split; reflexivity.
Defined.


Lemma rerun_without_new_files_is_a_no_op_witness :
  Ingest.all_files [Fs.File "a.txt"]
      Sample.no_expand "source_documents" = ["source_documents/a.txt"]
  /\ Ingest.main Sample.load_any Sample.in_order Sample.no_split [Fs.File "a.txt"] Sample.no_expand
       Sample.opens Sample.opens Sample.opens Sample.ingest_cfg
       {| Ingest.store := [Sample.doc "source_documents/a.txt"]; Ingest.log := [] |}
     = (Raise (SystemExit 0),
        {| Ingest.store := [Sample.doc "source_documents/a.txt"];
           Ingest.log := [Ingest.Print "Appending to existing vectorstore at db";
                          Ingest.Print "Loading documents from source_documents";
                          Ingest.Print "No new documents to load"] |}).
Proof.
  split; [reflexivity|].
  apply (rerun_without_new_files_is_a_no_op Sample.load_any Sample.in_order
           Sample.no_split [Fs.File "a.txt"] Sample.no_expand Sample.opens Sample.opens
           Sample.opens Sample.ingest_cfg
           {| Ingest.store := [Sample.doc "source_documents/a.txt"]; Ingest.log := [] |}
           ["source_documents/a.txt"]).
  - reflexivity.
  - discriminate.
  - reflexivity.
  - intros p Hp. exact Hp.
  - reflexivity.
Defined.

Lemma record_without_source_stops_append_witness :
  Ingest.sources [Sample.doc "source_documents/a.txt"]
  = Return ["source_documents/a.txt"]
  /\ Ingest.main Sample.load_any Sample.in_order Sample.no_split [Fs.File "a.txt"]
       Sample.no_expand Sample.opens Sample.opens Sample.opens Sample.ingest_cfg
       {| Ingest.store := [Sample.doc "source_documents/a.txt"; Sample.stray_doc];
          Ingest.log := [] |}
     = (Raise (TypeError "'NoneType' object is not subscriptable"),
        {| Ingest.store := [Sample.doc "source_documents/a.txt"; Sample.stray_doc];
           Ingest.log := [Ingest.Print "Appending to existing vectorstore at db"] |})
  /\ Ingest.main Sample.load_any Sample.in_order Sample.no_split [Fs.File "a.txt"]
       Sample.no_expand Sample.opens Sample.opens Sample.opens Sample.ingest_cfg
       {| Ingest.store := [Sample.doc "source_documents/a.txt"; Sample.paged_doc;
                           Sample.stray_doc];
          Ingest.log := [] |}
     = (Raise (KeyError "source"),
        {| Ingest.store := [Sample.doc "source_documents/a.txt"; Sample.paged_doc;
                            Sample.stray_doc];
           Ingest.log := [Ingest.Print "Appending to existing vectorstore at db"] |}).
Proof.
  assert (Hfirst : Forall (fun r => is_Some (Ingest.metadata r !! "source"))
                     [Sample.doc "source_documents/a.txt"]).
  { constructor; [|constructor]. exists "source_documents/a.txt". reflexivity. }
  split; [|split].
  - exact (proj1 (record_without_source_stops_append Sample.load_any Sample.in_order
                    Sample.no_split [Fs.File "a.txt"] Sample.no_expand Sample.opens
                    Sample.opens Sample.opens Sample.ingest_cfg
                    {| Ingest.store := [Sample.doc "source_documents/a.txt"];
                       Ingest.log := [] |})
             Hfirst).
  - exact (proj2 (record_without_source_stops_append Sample.load_any Sample.in_order
                    Sample.no_split [Fs.File "a.txt"] Sample.no_expand Sample.opens
                    Sample.opens Sample.opens Sample.ingest_cfg
                    {| Ingest.store := [Sample.doc "source_documents/a.txt";
                                        Sample.stray_doc];
                       Ingest.log := [] |})
             [Sample.doc "source_documents/a.txt"] Sample.stray_doc []
             eq_refl Hfirst eq_refl eq_refl).
  - exact (proj2 (record_without_source_stops_append Sample.load_any Sample.in_order
                    Sample.no_split [Fs.File "a.txt"] Sample.no_expand Sample.opens
                    Sample.opens Sample.opens Sample.ingest_cfg
                    {| Ingest.store := [Sample.doc "source_documents/a.txt";
                                        Sample.paged_doc; Sample.stray_doc];
                       Ingest.log := [] |})
             [Sample.doc "source_documents/a.txt"] Sample.paged_doc [Sample.stray_doc]
             eq_refl Hfirst eq_refl eq_refl).
Defined.

(** ** More on reading the configuration *)
Section Imports.
Import Py Env.

Variables dotenv environ : gmap string string.

(** X15. The import of [ingest] looks at two things only, in this order.
    Without [PERSIST_DIRECTORY] it raises the exception of [constants]. With
    it but with a [.env] file that holds no binding it prints its message and
    leaves through [exit(1)], although the variable is set. Otherwise it
    succeeds: the chunk size is 1000, the overlap 100, the source directory
    is ["source_documents"] unless [SOURCE_DIRECTORY] is set, and the
    embeddings model name is read unchecked. *)
Theorem import_ingest_outcomes :
  ((environ ∪ dotenv) !! "PERSIST_DIRECTORY" = None ->
   Ingest.import_ingest dotenv environ
   = ([], Raise (Exception "Please set the PERSIST_DIRECTORY environment variable")))
  /\ (forall d,
        (environ ∪ dotenv) !! "PERSIST_DIRECTORY" = Some d ->
        dotenv = ∅ ->
        Ingest.import_ingest dotenv environ
        = (["Could not load .env file or it is empty. Please check it exists and is readable."],
           Raise (SystemExit 1)))
  /\ (forall d,
        (environ ∪ dotenv) !! "PERSIST_DIRECTORY" = Some d ->
        dotenv <> ∅ ->
        Ingest.import_ingest dotenv environ
        = ([],
           Return {| Ingest.chunk_size := 1000;
                     Ingest.chunk_overlap := 100;
                     Ingest.persist_directory := Some d;
                     Ingest.source_directory :=
                       default "source_documents"
                         ((environ ∪ dotenv) !! "SOURCE_DIRECTORY");
                     Ingest.embeddings_model_name :=
                       (environ ∪ dotenv) !! "EMBEDDINGS_MODEL_NAME";
                     Ingest.CHROMA_SETTINGS :=
                       {| Constants.persist_directory := d;
                          Constants.anonymized_telemetry := false |} |})).
Proof.
  unfold Ingest.import_ingest, Constants.import_constants, load_dotenv. cbn [fst snd].
  rewrite load_dotenv_again. repeat split.
  - by intros ->.
  - intros d -> ->. by rewrite bool_decide_eq_true_2.
  - intros d Hdir Hfile. rewrite !Hdir. by rewrite bool_decide_eq_false_2.
Qed.

(** X16. The import of [privateGPT] fails at the first of its checks, in
    this order. A name among [GPT4All] and [Llamacpp] that [langchain.llms]
    does not provide stops it with the import error for that name, whatever
    the environment holds. With both names and the store location set, a
    [.env] file without a binding makes it print its message and leave
    through [exit(1)] before any numeral is read; a batch size that [int]
    rejects in base 8 stops it with that error, whatever the number of chunks
    is; a number of chunks that [int] rejects in base 4 stops it once the
    batch size has been read. *)
Theorem import_privateGPT_fails_in_order (llms : list string) (d : string) :
  ("GPT4All" ∉ llms ->
   PrivateGPT.import_privateGPT llms dotenv environ
   = ([], Raise (ImportError "GPT4All" "langchain.llms")))
  /\ ("GPT4All" ∈ llms -> "Llamacpp" ∉ llms ->
      PrivateGPT.import_privateGPT llms dotenv environ
      = ([], Raise (ImportError "Llamacpp" "langchain.llms")))
  /\ ("GPT4All" ∈ llms -> "Llamacpp" ∈ llms ->
      (environ ∪ dotenv) !! "PERSIST_DIRECTORY" = Some d ->
      (dotenv = ∅ ->
       PrivateGPT.import_privateGPT llms dotenv environ
       = (["Could not load .env file or it is empty. Please check if it exists and is readable."],
          Raise (SystemExit 1)))
      /\ (forall e,
            dotenv <> ∅ ->
            int_base ((environ ∪ dotenv) !! "MODEL_N_BATCH") 8 = Raise e ->
            PrivateGPT.import_privateGPT llms dotenv environ = ([], Raise e))
      /\ (forall n_batch e,
            dotenv <> ∅ ->
            int_base ((environ ∪ dotenv) !! "MODEL_N_BATCH") 8 = Return n_batch ->
            int_base ((environ ∪ dotenv) !! "TARGET_SOURCE_CHUNKS") 4 = Raise e ->
            PrivateGPT.import_privateGPT llms dotenv environ = ([], Raise e))).
Proof.
  split; [|split].
  - intros Hg. unfold PrivateGPT.import_privateGPT, PrivateGPT.import_llms.
    by rewrite bool_decide_eq_false_2.
  - intros Hg Hl. unfold PrivateGPT.import_privateGPT, PrivateGPT.import_llms.
    by rewrite bool_decide_eq_true_2, bool_decide_eq_false_2.
  - intros Hg Hl Hdir. split; [|split].
    + intros ->.
      unfold PrivateGPT.import_privateGPT. rewrite (import_llms_provided _ Hg Hl).
      unfold Constants.import_constants, load_dotenv.
      cbn [fst snd]. rewrite load_dotenv_again, Hdir. by rewrite bool_decide_eq_true_2.
    + intros e Hfile Hbatch.
      rewrite (import_privateGPT_reads _ _ _ d Hg Hl Hfile Hdir).
      unfold PrivateGPT.read_settings. by rewrite Hbatch.
    + intros n_batch e Hfile Hbatch Hchunks.
      rewrite (import_privateGPT_reads _ _ _ d Hg Hl Hfile Hdir).
      unfold PrivateGPT.read_settings. by rewrite Hbatch, Hchunks.
Qed.

End Imports.

Lemma import_ingest_outcomes_witness :
  (∅ ∪ (∅ : gmap string string)) !! "PERSIST_DIRECTORY" = None
  /\ Ingest.import_ingest ∅ ∅
     = ([], Raise (Exception "Please set the PERSIST_DIRECTORY environment variable"))
  /\ Ingest.import_ingest ∅ Sample.dotenv
     = (["Could not load .env file or it is empty. Please check it exists and is readable."],
        Raise (SystemExit 1))
  /\ Ingest.import_ingest Sample.dotenv ∅ = ([], Return Sample.ingest_cfg).
Proof.
  assert (Hne : Sample.dotenv <> ∅).
  { intros H. apply (f_equal (fun m : gmap string string => m !! "MODEL_TYPE")) in H.
    discriminate H. }
  split; [reflexivity|]. split; [|split].
  - exact (proj1 (import_ingest_outcomes ∅ ∅) eq_refl).
  - exact (proj1 (proj2 (import_ingest_outcomes ∅ Sample.dotenv)) "db" eq_refl eq_refl).
  - exact (proj2 (proj2 (import_ingest_outcomes Sample.dotenv ∅)) "db" eq_refl Hne).
Defined.

Lemma import_privateGPT_fails_in_order_witness :
  PrivateGPT.import_privateGPT ["LlamaCpp"] Sample.dotenv ∅
  = ([], Raise (ImportError "GPT4All" "langchain.llms"))
  /\ PrivateGPT.import_privateGPT Sample.langchain_llms Sample.dotenv ∅
     = ([], Raise (ImportError "Llamacpp" "langchain.llms"))
  /\ PrivateGPT.import_privateGPT Sample.aliased_llms ∅
       (<["MODEL_N_BATCH" := "eight"]> Sample.dotenv)
     = (["Could not load .env file or it is empty. Please check if it exists and is readable."],
        Raise (SystemExit 1))
  /\ PrivateGPT.import_privateGPT Sample.aliased_llms
       (<["MODEL_N_BATCH" := "eight"]> (<["TARGET_SOURCE_CHUNKS" := "9"]> Sample.dotenv)) ∅
     = ([], Raise (InvalidLiteral 8 "eight"))
  /\ PrivateGPT.import_privateGPT Sample.aliased_llms
       (<["TARGET_SOURCE_CHUNKS" := "9"]> Sample.dotenv) ∅
     = ([], Raise (InvalidLiteral 4 "9")).
Proof.
  assert (Hne : forall m : gmap string string, m !! "PERSIST_DIRECTORY" = Some "db" -> m <> ∅).
  { intros m Hm ->. discriminate Hm. }
  assert (Hg : "GPT4All" ∈ Sample.aliased_llms) by (apply (bool_decide_unpack _); exact I).
  assert (Hl : "Llamacpp" ∈ Sample.aliased_llms) by (apply (bool_decide_unpack _); exact I).
  assert (Hg' : "GPT4All" ∈ Sample.langchain_llms) by (apply (bool_decide_unpack _); exact I).
  assert (Hl' : "Llamacpp" ∉ Sample.langchain_llms) by (apply (bool_decide_unpack _); exact I).
  assert (Hg0 : "GPT4All" ∉ ["LlamaCpp"]) by (apply (bool_decide_unpack _); exact I).
  assert (Hn8 : <["MODEL_N_BATCH" := "eight"]>
                  (<["TARGET_SOURCE_CHUNKS" := "9"]> Sample.dotenv) <> ∅)
    by (apply Hne; reflexivity).
  assert (Hn9 : <["TARGET_SOURCE_CHUNKS" := "9"]> Sample.dotenv <> ∅)
    by (apply Hne; reflexivity).
  split; [|split; [|split; [|split]]].
  - exact (proj1 (import_privateGPT_fails_in_order Sample.dotenv ∅ ["LlamaCpp"] "db") Hg0).
  - exact (proj1 (proj2 (import_privateGPT_fails_in_order Sample.dotenv ∅
                           Sample.langchain_llms "db")) Hg' Hl').
  - apply (proj2 (proj2 (import_privateGPT_fails_in_order ∅
                           (<["MODEL_N_BATCH" := "eight"]> Sample.dotenv)
                           Sample.aliased_llms "db")) Hg Hl); reflexivity.
  - apply (proj2 (proj2 (import_privateGPT_fails_in_order
                           (<["MODEL_N_BATCH" := "eight"]>
                              (<["TARGET_SOURCE_CHUNKS" := "9"]> Sample.dotenv)) ∅
                           Sample.aliased_llms "db")) Hg Hl);
      [reflexivity|exact Hn8|reflexivity].
  - apply (proj2 (proj2 (import_privateGPT_fails_in_order
                           (<["TARGET_SOURCE_CHUNKS" := "9"]> Sample.dotenv) ∅
                           Sample.aliased_llms "db")) Hg Hl) with (n_batch := 8%Z);
      [reflexivity|exact Hn9|reflexivity|reflexivity].
Defined.

(** ** Files are discovered once *)
Section NoDoubleDiscovery.
Import Py Fs Ingest.

Variable expand : string -> list (string * list entry).

Lemma common_end (p1 p2 s1 s2 : string) :
  p1 +:+ s1 = p2 +:+ s2 ->
  (exists q, s1 = q +:+ s2) \/ (exists q, s2 = q +:+ s1).
Proof.
  revert p2. induction p1 as [|c p1 IH]; intros p2 Heq.
  - left. by exists p2.
  - destruct p2 as [|c' p2].
    + right. by exists (String c p1).
    + rewrite !append_cons in Heq. simplify_eq. eauto.
Qed.

Lemma endswith_comparable (x s1 s2 : string) :
  endswith x s1 = true -> endswith x s2 = true ->
  endswith s1 s2 = true \/ endswith s2 s1 = true.
Proof.
  intros [p1 H1]%endswith_app [p2 H2]%endswith_app. rewrite H1 in H2.
  destruct (common_end _ _ _ _ H2) as [[q ->]|[q ->]];
    [left|right]; apply app_endswith.
Qed.

Lemma flat_map_pair {A B} (f : string -> list B) (g h : A -> string) (l : list A) :
  flat_map (fun a => f (g a) ++ f (h a)) l
  = flat_map f (flat_map (fun a => [g a; h a]) l).
Proof.
  induction l as [|a l IH]; [done|].
  simpl. by rewrite IH, <- app_assoc.
Qed.

(** The patterns of the scan are distinct and none ends with another. *)
Lemma patterns_apart :
  let patterns := flat_map (fun kv => [lower (fst kv); upper (fst kv)]) LOADER_MAPPING in
  NoDup patterns
  /\ forall s1 s2, s1 ∈ patterns -> s2 ∈ patterns -> endswith s1 s2 = true -> s1 = s2.
Proof.
  intros patterns. split.
  - apply (bool_decide_unpack _). by vm_compute.
  - assert (forallb (fun s1 => forallb (fun s2 => implb (endswith s1 s2) (String.eqb s1 s2))
                                 patterns) patterns = true) as Hcheck by (by vm_compute).
    intros s1 s2 H1%list_elem_of_In H2%list_elem_of_In Hends.
    rewrite forallb_forall in Hcheck. specialize (Hcheck s1 H1).
    rewrite forallb_forall in Hcheck. specialize (Hcheck s2 H2).
    rewrite Hends in Hcheck. by apply String.eqb_eq.
Qed.

Lemma glob1_once (listing : list entry) (suffix : string) :
  NoDup (map entry_name listing) -> NoDup (glob1 listing suffix).
Proof. intros Hnames. unfold glob1. by do 2 apply NoDup_filter. Qed.

Lemma glob1_patterns_once (listing : list entry) (patterns : list string) :
  NoDup (map entry_name listing) ->
  NoDup patterns ->
  (forall s1 s2, s1 ∈ patterns -> s2 ∈ patterns -> endswith s1 s2 = true -> s1 = s2) ->
  NoDup (flat_map (glob1 listing) patterns).
Proof.
  intros Hnames Hnodup Hapart.
  induction patterns as [|s patterns IH]; [constructor|].
  apply NoDup_cons in Hnodup as [Hfresh Hnodup].
  simpl. apply NoDup_app. split; [by apply glob1_once|]. split.
  - intros x Hx (s' & Hs' & Hx')%elem_of_flat_map.
    unfold glob1 in Hx, Hx'.
    apply list_elem_of_filter in Hx as [Hx _].
    apply list_elem_of_filter in Hx' as [Hx' _].
    assert (s ∈ s :: patterns) as Hs by (apply elem_of_cons; by left).
    assert (s' ∈ s :: patterns) as Hs'' by (apply elem_of_cons; by right).
    destruct (endswith_comparable x s s' Hx Hx') as [H|H].
    + apply (Hapart s s' Hs Hs'') in H. by subst.
    + apply (Hapart s' s Hs'' Hs) in H. by subst.
  - apply IH; [done|].
    intros s1 s2 H1 H2. apply Hapart; apply elem_of_cons; by right.
Qed.

Lemma map_once {A B} (f : A -> B) (l : list A) :
  (forall x y, x ∈ l -> y ∈ l -> f x = f y -> x = y) ->
  NoDup l -> NoDup (map f l).
Proof.
  intros Hinj. induction 1 as [|x l Hx Hl IH]; [constructor|].
  simpl. apply NoDup_cons. split.
  - intros (y & Hxy & Hy)%elem_of_map.
    apply Hinj in Hxy; [by subst| apply elem_of_cons; by left| apply elem_of_cons; by right].
  - apply IH. intros y z Hy Hz. apply Hinj; apply elem_of_cons; by right.
Qed.

(** X17. In a source directory whose name holds none of the pattern
    characters of [glob], without subdirectories to enter and whose entries
    have distinct names, the scan reports no path twice: the patterns of the
    table do not overlap, so no file is handed to the pool more than once. *)
Theorem no_file_is_discovered_twice (root : list entry) (source_dir : string) :
  has_magic source_dir = false ->
  rlistdir root = [] ->
  NoDup (map entry_name root) ->
  Forall (fun e => startswith (entry_name e) "/" = false) root ->
  NoDup (all_files root expand source_dir).
Proof.
  intros Hplain Hflat Hnames Hslash.
  rewrite (all_files_flat expand root source_dir Hplain Hflat), flat_map_pair.
  destruct patterns_apart as [Hnodup Hapart].
  apply map_once; [|by apply glob1_patterns_once].
  assert (forall x, x ∈ flat_map (glob1 root)
                         (flat_map (fun kv => [lower (fst kv); upper (fst kv)])
                                   LOADER_MAPPING) ->
                    startswith x "/" = false) as Hnames'.
  { intros x (s & _ & Hx)%elem_of_flat_map. unfold glob1 in Hx.
    apply list_elem_of_filter in Hx as [_ Hx].
    apply list_elem_of_filter in Hx as [_ Hx].
    apply elem_of_map in Hx as (e & -> & He).
    rewrite Forall_forall in Hslash. by apply Hslash. }
  intros x y Hx Hy. apply child_path_inj; by apply Hnames'.
Qed.

End NoDoubleDiscovery.

Lemma no_file_is_discovered_twice_witness :
  Fs.has_magic "source_documents" = false
  /\ NoDup (Ingest.all_files [Fs.File "a.txt"; Fs.File "a.TXT"; Fs.File "a.txt.pdf"]
              Sample.no_expand "source_documents").
Proof.
  split; [reflexivity|].
  apply (no_file_is_discovered_twice Sample.no_expand
           [Fs.File "a.txt"; Fs.File "a.TXT"; Fs.File "a.txt.pdf"] "source_documents").
  - reflexivity.
  - reflexivity.
  - apply (bool_decide_unpack _). exact I.
  - repeat constructor.
Defined.

(** ** Subdirectories *)
Section Recursion.
Import Py Fs Ingest.

Variable root : list entry.
Variable expand : string -> list (string * list entry).

Lemma rlistdir_enters (x : string) (children : list entry) :
  Dir x children ∈ root -> ishidden x = false ->
  (x, children) ∈ rlistdir root
  /\ forall y listing, (y, listing) ∈ rlistdir children ->
       (os_path_join x y, listing) ∈ rlistdir root.
Proof.
  intros Hin Hshown. unfold rlistdir at 1 3. split.
  - apply elem_of_flat_map. exists (Dir x children). split; [done|].
    simpl. rewrite Hshown. apply elem_of_cons. by left.
  - intros y listing Hy. apply elem_of_flat_map.
    exists (Dir x children). split; [done|].
    simpl. rewrite Hshown. apply elem_of_cons. right.
    apply elem_of_map. by exists (y, listing).
Qed.

(** X18. The scan goes down into subdirectories. A directory of the source
    directory whose name does not start with a dot is visited, and so is every
    directory visited from it, under the joined relative path. Where the name
    of the source directory holds none of the pattern characters of [glob],
    in each visited directory an entry whose name does not start with a dot
    and ends with a key of [LOADER_MAPPING], all in lower case or all in upper
    case, is discovered under the path of that directory joined with its
    name. *)
Theorem scan_descends_into_subdirectories (source_dir : string) :
  (forall x children,
     Dir x children ∈ root -> ishidden x = false ->
     (x, children) ∈ rlistdir root
     /\ forall y listing, (y, listing) ∈ rlistdir children ->
          (os_path_join x y, listing) ∈ rlistdir root)
  /\ (forall rel listing e ext loader,
        has_magic source_dir = false ->
        (rel, listing) ∈ rlistdir root ->
        e ∈ listing ->
        (ext, loader) ∈ LOADER_MAPPING ->
        ishidden (entry_name e) = false ->
        endswith (entry_name e) (lower ext) = true
        \/ endswith (entry_name e) (upper ext) = true ->
        os_path_join (os_path_join (glob_dirname source_dir) rel) (entry_name e)
        ∈ all_files root expand source_dir).
Proof.
  split; [apply rlistdir_enters|].
  intros rel listing e ext loader Hplain Hrel He Hext Hshown Hends.
  unfold all_files. apply elem_of_flat_map.
  exists (ext, loader). split; [done|]. cbn [fst].
  assert (forall suffix, endswith (entry_name e) suffix = true ->
            os_path_join (os_path_join (glob_dirname source_dir) rel) (entry_name e)
            ∈ glob_recursive expand source_dir root suffix) as Hglob.
  { intros suffix Hs. unfold glob_recursive, visited. rewrite Hplain.
    apply elem_of_flat_map.
    exists (os_path_join (glob_dirname source_dir) rel, listing). split.
    { apply elem_of_map. exists (rel, listing). split; [done|].
      apply elem_of_cons. by right. }
    cbn [fst snd]. apply elem_of_map. exists (entry_name e). split; [done|].
    unfold glob1.
    apply list_elem_of_filter. split; [done|].
    apply list_elem_of_filter. split; [done|].
    apply elem_of_map. by exists e. }
  apply elem_of_app. destruct Hends as [Hl|Hu]; [left|right]; by apply Hglob.
Qed.

End Recursion.

Lemma scan_descends_into_subdirectories_witness :
  Fs.has_magic "source_documents" = false
  /\ ("site/photos", [Fs.File "crane.PDF"])
  ∈ Fs.rlistdir [Fs.Dir "site" [Fs.Dir "photos" [Fs.File "crane.PDF"]]]
  /\ "source_documents/site/photos/crane.PDF"
     ∈ Ingest.all_files [Fs.Dir "site" [Fs.Dir "photos" [Fs.File "crane.PDF"]]] Sample.no_expand
         "source_documents".
Proof.
  assert (H1 : ("site/photos", [Fs.File "crane.PDF"])
               ∈ Fs.rlistdir [Fs.Dir "site" [Fs.Dir "photos" [Fs.File "crane.PDF"]]]).
  { apply (proj2 (proj1 (scan_descends_into_subdirectories
                           [Fs.Dir "site" [Fs.Dir "photos" [Fs.File "crane.PDF"]]]
                           Sample.no_expand "source_documents")
                    "site" [Fs.Dir "photos" [Fs.File "crane.PDF"]]
                    ltac:(apply elem_of_cons; by left) eq_refl)
             "photos" [Fs.File "crane.PDF"]).
    apply elem_of_cons. by left. }
  split; [reflexivity|]. split; [exact H1|].
  apply (proj2 (scan_descends_into_subdirectories
                  [Fs.Dir "site" [Fs.Dir "photos" [Fs.File "crane.PDF"]]]
                  Sample.no_expand "source_documents")
           "site/photos" [Fs.File "crane.PDF"] (Fs.File "crane.PDF") ".pdf"
           (Ingest.PyMuPDFLoader, []) eq_refl H1).
  - apply elem_of_cons. by left.
  - do 10 (apply elem_of_cons; right). apply elem_of_cons. by left.
  - reflexivity.
  - right. reflexivity.
Defined.

(** ** What an answered query prints *)
Section Answers.
Import Py Env PrivateGPT.

Variable qa : chain -> string -> outcome answer.
Variable args : arguments.

Lemma print_sources_all (docs : list Ingest.Document) :
  forall log,
  Forall (fun d => is_Some (Ingest.metadata d !! "source")) docs ->
  print_sources docs log = (Return tt, log ++ flat_map source_lines docs).
Proof.
  induction docs as [|d docs IH]; intros log Hall; simpl.
  - by rewrite app_nil_r.
  - apply Forall_cons in Hall as [[src Hsrc] Hall].
    rewrite Hsrc, IH by done. simpl. by rewrite <- app_assoc.
Qed.

(** X19. For a query the chain answers, the iteration records the call,
    prints the question heading, the query as typed, the answer heading with
    the time taken and the answer, then two lines for each source document,
    and goes on with the loop. With [--hide-source] no source line is printed
    and the metadata of the documents is not looked at. *)
Theorem answered_query_prints
    (continue : list event -> outcome unit * list string * list event)
    (qa_chain : chain) (query : string) (stdin' : list string) (log : list event)
    (res : answer) :
  qa qa_chain query = Return res ->
  (hide_source args = false ->
   Forall (fun d => is_Some (Ingest.metadata d !! "source")) (source_documents res)) ->
  answer_query qa args continue qa_chain query stdin' log
  = continue
      (log
       ++ [Ask query;
           Print (nl +:+ nl +:+ " > Question:");
           Print query;
           Print (nl +:+ "> Answer (took " +:+ seconds res +:+ "s.):");
           Print (result res)]
       ++ (if hide_source args then [] else flat_map source_lines (source_documents res))).
Proof.
  intros Hqa Hsources. unfold answer_query. rewrite Hqa.
  destruct (hide_source args).
  - simpl. by rewrite ?app_nil_r.
  - rewrite print_sources_all by auto. by rewrite <- app_assoc.
Qed.

End Answers.

Lemma answered_query_prints_witness :
  query_loop Sample.qa Sample.args Sample.a_chain ["What is retention?"; "exit"] []
  = (Return tt, [],
     [the_prompt;
      Ask "What is retention?";
      Print (nl +:+ nl +:+ " > Question:");
      Print "What is retention?";
      Print (nl +:+ "> Answer (took 1.25s.):");
      Print "It depends on the contract.";
      Print (nl +:+ "> source_documents/c.txt:");
      Print "text of source_documents/c.txt";
      the_prompt]).
Proof.
  change (answer_query Sample.qa Sample.args
            (query_loop Sample.qa Sample.args Sample.a_chain ["exit"])
            Sample.a_chain "What is retention?" ["exit"] [the_prompt]
          = (Return tt, [],
             [the_prompt; Ask "What is retention?";
              Print (nl +:+ nl +:+ " > Question:"); Print "What is retention?";
              Print (nl +:+ "> Answer (took 1.25s.):");
              Print "It depends on the contract.";
              Print (nl +:+ "> source_documents/c.txt:");
              Print "text of source_documents/c.txt"; the_prompt])).
  rewrite (answered_query_prints Sample.qa Sample.args
             (query_loop Sample.qa Sample.args Sample.a_chain ["exit"])
             Sample.a_chain "What is retention?" ["exit"] [the_prompt]
             {| result := "It depends on the contract.";
                source_documents := [Sample.doc "source_documents/c.txt"];
                seconds := "1.25" |}).
  - reflexivity.
  - reflexivity.
  - intros _. constructor; [|constructor].
    exists "source_documents/c.txt". reflexivity.
Defined.
